(** * GetSysUUID: the SMBIOS raw-table walker, the System Information
      (Type 1) decoder and the UUID formatter of [GetSysUUID.py].

    The Python 2 source works on [str] values (byte strings), Python
    integers and dictionaries.  Byte strings are [list byte], integers are
    [Z], [self.table_data] is a [gmap Z (list byte)] and [self.type1_data]
    a [gmap string pyval].  Exceptions are the [Raise] outcome of [result]. *)

From Stdlib Require Import ZArith Lia Strings.Ascii Strings.String Strings.Byte.
From stdpp Require Import gmap strings list fin_maps.

Local Open Scope Z_scope.

(** ** Python values and exceptions *)

(** The exceptions the modelled code can raise: [IndexError] from indexing a
    [str] or tuple out of range, [KeyError] from a dictionary lookup,
    [StructError] for [struct.error] (wrong argument length of [unpack]). *)
Inductive exn : Type :=
  | IndexError
  | KeyError
  | StructError.

Inductive result (A : Type) : Type :=
  | Ok (a : A)
  | Raise (e : exn).

Arguments Ok {A} a.
Arguments Raise {A} e.

Definition bind {A B : Type} (r : result A) (k : A -> result B) : result B :=
  match r with
  | Ok a => k a
  | Raise e => Raise e
  end.

Notation "x <- r ;; k" := (bind r (fun x => k))
  (at level 100, r at next level, right associativity).

(** [try: body except IndexError: handler] *)
Definition try_except_IndexError {A : Type} (body : result A) (handler : result A)
  : result A :=
  match body with
  | Raise IndexError => handler
  | other => other
  end.

(** The values stored in [type1_data]: integers and the tuple returned by
    [struct.unpack("<16B", ...)]. *)
Inductive pyval : Type :=
  | PyInt (n : Z)
  | PyTuple (t : list Z).

Module Py.

(** A slice bound as Python normalises it: a negative bound counts from the
    end, and every bound is clipped to [0 .. len]. *)
Definition clip (len : nat) (k : Z) : nat :=
  let k' := if k <? 0 then Z.max 0 (Z.of_nat len + k) else k in
  Nat.min (Z.to_nat k') len.

(** [s[a:]] *)
Definition slice_from {A : Type} (s : list A) (a : Z) : list A :=
  drop (clip (length s) a) s.

(** [s[:b]] *)
Definition slice_to {A : Type} (s : list A) (b : Z) : list A :=
  take (clip (length s) b) s.

(** [s[a:b]] *)
Definition slice {A : Type} (s : list A) (a b : Z) : list A :=
  let a' := clip (length s) a in
  let b' := clip (length s) b in
  take (b' - a') (drop a' s).

(** [s[i]] for a constant index [i >= 0]. *)
Definition index {A : Type} (s : list A) (i : nat) : result A :=
  match s !! i with
  | Some c => Ok c
  | None => Raise IndexError
  end.

(** [d[k]] on a dictionary. *)
Definition getitem {V : Type} (d : gmap Z V) (k : Z) : result V :=
  match d !! k with
  | Some v => Ok v
  | None => Raise KeyError
  end.

Fixpoint startswith (s sub : list byte) {struct sub} : bool :=
  match sub, s with
  | [], _ => true
  | _ :: _, [] => false
  | c :: sub', d :: s' => Byte.eqb c d && startswith s' sub'
  end.

Fixpoint find_from (s sub : list byte) (i : Z) : Z :=
  if startswith s sub then i
  else match s with
       | [] => -1
       | _ :: s' => find_from s' sub (i + 1)
       end.

(** [s.find(sub)]: the lowest index where [sub] occurs in [s], or [-1]. *)
Definition find (s sub : list byte) : Z := find_from s sub 0.

End Py.

Module Struct.

Definition byte_of_Z (n : Z) : byte :=
  default x00 (Byte.of_N (Z.to_N n)).

(** [struct.unpack("<B", c)[0]] on the one-character string [c]. *)
Definition unpack_B (c : byte) : Z := Z.of_N (Byte.to_N c).

(** [struct.unpack("<H", s)[0]]: [struct.error] unless [s] has 2 bytes. *)
Definition unpack_H (s : list byte) : result Z :=
  match s with
  | [lo; hi] => Ok (unpack_B lo + 256 * unpack_B hi)
  | _ => Raise StructError
  end.

(** [struct.unpack("<16B", s)]: [struct.error] unless [s] has 16 bytes. *)
Definition unpack_16B (s : list byte) : result (list Z) :=
  if Nat.eqb (length s) 16 then Ok (unpack_B <$> s) else Raise StructError.

(** [struct.pack("<H", n)] for [0 <= n < 65536]. *)
Definition pack_H (n : Z) : list byte :=
  [byte_of_Z (n mod 256); byte_of_Z (n / 256)].

End Struct.

(** ** [class ParseSMBIOSTable] *)

(** The two attributes the walk reads and writes.  [type1_data] is produced
    by [parse_type1] and returned by it here. *)
Record ParseSMBIOSTable : Type := {
  table_data : gmap Z (list byte);
  SMBIOSTableData : list byte
}.

(** [__init__] *)
Definition init (data : list byte) : ParseSMBIOSTable :=
  {| table_data := ∅; SMBIOSTableData := data |}.

(** [formatted_len + unformatted_len] of one loop iteration of
    [walk_structure], for the length byte [c] read from [data[1]]. *)
Definition formatted_len (c : byte) : Z := Struct.unpack_B c.

Definition unformatted_len (data : list byte) (c : byte) : Z :=
  Py.find (Py.slice_from data (formatted_len c)) (Struct.pack_H 0) + 2.

(** Outcome of one pass through the body of [while 1]. *)
Inductive iteration : Type :=
  | Break
  | Continue (self : ParseSMBIOSTable).

Definition walk_iteration (self : ParseSMBIOSTable) : result iteration :=
  let data := SMBIOSTableData self in
  match Py.index data 1 with
  | Raise IndexError => Ok Break (* except IndexError: break *)
  | Raise e => Raise e
  | Ok c =>
      handle <- Struct.unpack_H (Py.slice data 2 4) ;;
      let n := formatted_len c + unformatted_len data c in
      Ok (Continue {| table_data := <[handle := Py.slice_to data n]> (table_data self);
                      SMBIOSTableData := Py.slice_from data n |})
  end.

(** The [while 1] loop; [None] stands for a loop that has not ended within
    [fuel] iterations. *)
Fixpoint walk_loop (fuel : nat) (self : ParseSMBIOSTable)
  : option (result ParseSMBIOSTable) :=
  match fuel with
  | O => None
  | S fuel' =>
      match walk_iteration self with
      | Raise e => Some (Raise e)
      | Ok Break => Some (Ok self)
      | Ok (Continue self') => walk_loop fuel' self'
      end
  end.

Definition walk_structure (self : ParseSMBIOSTable)
  : option (result ParseSMBIOSTable) :=
  walk_loop (S (length (SMBIOSTableData self))) self.

(** [parse_type1]: the dictionary [self.type1_data] it builds. *)
Definition decode_type1 (raw_data : list byte) : result (gmap string pyval) :=
  let d : gmap string pyval := ∅ in
  c <- Py.index raw_data 1 ;;
  let d := <["Length" := PyInt (Struct.unpack_B c)]> d in
  h <- Struct.unpack_H (Py.slice raw_data 2 4) ;;
  let d := <["Handle" := PyInt h]> d in
  c <- Py.index raw_data 5 ;;
  let d := <["Manufacturer" := PyInt (Struct.unpack_B c)]> d in
  c <- Py.index raw_data 6 ;;
  let d := <["Product Name" := PyInt (Struct.unpack_B c)]> d in
  c <- Py.index raw_data 7 ;;
  let d := <["Version" := PyInt (Struct.unpack_B c)]> d in
  c <- Py.index raw_data 8 ;;
  let d := <["Serial Number" := PyInt (Struct.unpack_B c)]> d in
  u <- Struct.unpack_16B (Py.slice raw_data 8 24) ;;
  let d := <["UUID" := PyTuple u]> d in
  c <- Py.index raw_data 25 ;;
  let d := <["Wake-up Type" := PyInt (Struct.unpack_B c)]> d in
  try_except_IndexError
    (c <- Py.index raw_data 26 ;;
     let d := <["SKU Number" := PyInt (Struct.unpack_B c)]> d in
     try_except_IndexError
       (c <- Py.index raw_data 27 ;;
        Ok (<["Family" := PyInt (Struct.unpack_B c)]> d))
       (Ok d))
    (Ok d).

Definition parse_type1 (self : ParseSMBIOSTable) : result (gmap string pyval) :=
  raw_data <- Py.getitem (table_data self) 1 ;;
  decode_type1 raw_data.

(** [__call__]: walk, then parse the System Information structure. *)
Definition call (self : ParseSMBIOSTable) : option (result (gmap string pyval)) :=
  match walk_structure self with
  | None => None
  | Some (Raise e) => Some (Raise e)
  | Some (Ok self') => Some (parse_type1 self')
  end.

(** ** [GetSysUUID._get_win32_uuid]: formatting *)

Definition hex_digit (d : Z) : ascii :=
  nth (Z.to_nat d) (String.list_ascii_of_string "0123456789abcdef") "0"%char.

Fixpoint hex_digits (fuel : nat) (n : Z) (acc : string) : string :=
  match fuel with
  | O => acc
  | S fuel' =>
      let acc' := String (hex_digit (n mod 16)) acc in
      if n / 16 =? 0 then acc' else hex_digits fuel' (n / 16) acc'
  end.

(** ["%x" % n] for [n >= 0]: lowercase hexadecimal, no padding. *)
Definition format_x (n : Z) : string :=
  hex_digits (S (Z.to_nat (Z.log2 n))) n "".

(** [raw_uuid[i]] on the tuple. *)
Definition tuple_index (t : list Z) (i : nat) : result Z := Py.index t i.

(** ["%x%x%x%x-%x%x-%x%x-%x%x-%x%x%x%x%x%x" % (raw_uuid[0], ..., raw_uuid[15])] *)
Definition format_uuid (raw_uuid : list Z) : result string :=
  b0 <- tuple_index raw_uuid 0 ;; b1 <- tuple_index raw_uuid 1 ;;
  b2 <- tuple_index raw_uuid 2 ;; b3 <- tuple_index raw_uuid 3 ;;
  b4 <- tuple_index raw_uuid 4 ;; b5 <- tuple_index raw_uuid 5 ;;
  b6 <- tuple_index raw_uuid 6 ;; b7 <- tuple_index raw_uuid 7 ;;
  b8 <- tuple_index raw_uuid 8 ;; b9 <- tuple_index raw_uuid 9 ;;
  b10 <- tuple_index raw_uuid 10 ;; b11 <- tuple_index raw_uuid 11 ;;
  b12 <- tuple_index raw_uuid 12 ;; b13 <- tuple_index raw_uuid 13 ;;
  b14 <- tuple_index raw_uuid 14 ;; b15 <- tuple_index raw_uuid 15 ;;
  Ok (format_x b0 +:+ format_x b1 +:+ format_x b2 +:+ format_x b3 +:+ "-" +:+
      format_x b4 +:+ format_x b5 +:+ "-" +:+
      format_x b6 +:+ format_x b7 +:+ "-" +:+
      format_x b8 +:+ format_x b9 +:+ "-" +:+
      format_x b10 +:+ format_x b11 +:+ format_x b12 +:+
      format_x b13 +:+ format_x b14 +:+ format_x b15).

(** ** Structures as the walk is meant to see them *)

(** The handle of a structure: bytes 2-3, little-endian. *)
Definition handle_of (s : list byte) : Z :=
  match s !! 2%nat, s !! 3%nat with
  | Some lo, Some hi => Struct.unpack_B lo + 256 * Struct.unpack_B hi
  | _, _ => 0
  end.

(** The unformatted section [u] ends with its first [0x00 0x00] pair. *)
Fixpoint ends_at_first_double_null (u : list byte) : bool :=
  match u with
  | a :: tl =>
      match tl with
      | b :: rest =>
          if Byte.eqb a x00 && Byte.eqb b x00
          then match rest with [] => true | _ :: _ => false end
          else ends_at_first_double_null tl
      | [] => false
      end
  | [] => false
  end.

(** Some two adjacent bytes of [u] are both [0x00]. *)
Fixpoint has_double_null (u : list byte) : bool :=
  match u with
  | a :: tl =>
      match tl with
      | b :: _ => (Byte.eqb a x00 && Byte.eqb b x00) || has_double_null tl
      | [] => false
      end
  | [] => false
  end.

(** A well-formed structure: the length byte [L >= 4] counts the formatted
    section, and the bytes from offset [L] on are a string section closed by
    the first double null. *)
Definition well_formed (s : list byte) : bool :=
  match s !! 1%nat with
  | Some c =>
      (4 <=? formatted_len c) &&
      ends_at_first_double_null (drop (Z.to_nat (formatted_len c)) s)
  | None => false
  end.

(** What the loop leaves in [table_data] after the structures [structs]. *)
Definition record_all (t : gmap Z (list byte)) (structs : list (list byte))
  : gmap Z (list byte) :=
  foldl (fun t s => <[handle_of s := s]> t) t structs.

(** ** The canonical rendering the formatter aims at *)

(** A byte as exactly two lowercase hexadecimal digits. *)
Definition hex2 (b : Z) : string :=
  String (hex_digit (b / 16)) (String (hex_digit (b mod 16)) "").

Definition hex2_run (bs : list Z) : string :=
  foldr (fun b s => hex2 b +:+ s) "" bs.

(** The 8-4-4-4-12 grouping: bytes 0-3, 4-5, 6-7, 8-9 and 10-15, each group
    run together, the groups joined by hyphens. *)
Definition uuid_string (u : list Z) : string :=
  hex2_run (take 4 u) +:+ "-" +:+
  hex2_run (take 2 (drop 4 u)) +:+ "-" +:+
  hex2_run (take 2 (drop 6 u)) +:+ "-" +:+
  hex2_run (take 2 (drop 8 u)) +:+ "-" +:+
  hex2_run (drop 10 u).

(** ** Outcomes *)

(** The run ended by raising an exception. *)
Definition fails {A : Type} (r : option (result A)) : Prop :=
  exists e, r = Some (Raise e).

(** The value a one-byte field takes when it is read at offset [i]. *)
Definition field_at (raw_data : list byte) (i : nat) : option pyval :=
  PyInt ∘ Struct.unpack_B <$> raw_data !! i.

(** What a run of [call] left under the key [k] of [type1_data]. *)
Definition type1_field (r : option (result (gmap string pyval))) (k : string)
  : option (result (option pyval)) :=
  match r with
  | None => None
  | Some (Raise e) => Some (Raise e)
  | Some (Ok d) => Some (Ok (d !! k))
  end.

(** ** Sample inputs *)

(** The UUID bytes [00 11 22 33 44 55 66 77 88 99 AA BB CC DD EE FF]. *)
Definition sample_uuid : list byte :=
  [x00; x11; x22; x33; x44; x55; x66; x77; x88; x99; xaa; xbb; xcc; xdd; xee; xff].

(** A 25-byte Type-1 structure: header, four string references, the UUID
    and the wake-up type [0x06] at offset 24. *)
Definition type1_25 : list byte :=
  [x01; x19; x01; x00; x0a; x0b; x0c; x0d] ++ sample_uuid ++ [x06].

(** A 27-byte Type-1 structure with SKU [0x05] and family [0x02], followed
    by its empty string section. *)
Definition type1_27 : list byte :=
  [x01; x1b; x01; x00; x0a; x0b; x0c; x0d] ++ sample_uuid ++ [x06; x05; x02].

Definition type1_27_terminated : list byte := type1_27 ++ [x00; x00].

(** Three structures with distinct handles and string sections of
    different lengths. *)
Definition three_structures : list (list byte) :=
  [ [x7f; x04; x34; x12; x00; x00];
    type1_27 ++ [x41; x42; x00; x43; x00; x00];
    [x02; x05; x02; x00; x09; x5a; x00; x00] ].

(** Two structures that share handle 7. *)
Definition shared_handle : list (list byte) :=
  [ [x7e; x04; x07; x00; x00; x00];
    [x02; x05; x07; x00; x09; x5a; x00; x00] ].

(** A structure that declares 27 formatted bytes where 6 bytes are left. *)
Definition truncated : list byte := [x01; x1b; x01; x00; x0a; x0b].

(** A structure whose string section never reaches a double null. *)
Definition unterminated : list byte := [x01; x04; x01; x00; x41; x42].

(** ** Python [str] methods used by the text handlers *)

Module Str.

(** A byte-string literal. *)
Definition lit (s : string) : list byte := String.list_byte_of_string s.

(** [sub in s] *)
Definition contains (s sub : list byte) : bool := 0 <=? Py.find s sub.

(** [s.replace(old, new)] for a non-empty [old]: matches are taken from left
    to right and do not overlap; [skip] counts the bytes of the current match
    that are still to be dropped. *)
Fixpoint replace_from (s old new : list byte) (skip : nat) : list byte :=
  match s with
  | [] => []
  | c :: s' =>
      match skip with
      | S k => replace_from s' old new k
      | O =>
          if Py.startswith s old
          then new ++ replace_from s' old new (length old - 1)
          else c :: replace_from s' old new 0
      end
  end.

Definition replace (s old new : list byte) : list byte := replace_from s old new 0.

(** The whitespace [str.strip()] removes: space, tab, newline, carriage
    return, vertical tab and form feed. *)
Definition isspace (c : byte) : bool :=
  match c with
  | x20 | x09 | x0a | x0d | x0b | x0c => true
  | _ => false
  end.

Fixpoint lstrip (s : list byte) : list byte :=
  match s with
  | c :: s' => if isspace c then lstrip s' else s
  | [] => []
  end.

Definition rstrip (s : list byte) : list byte := reverse (lstrip (reverse s)).

(** [s.strip()] *)
Definition strip (s : list byte) : list byte := rstrip (lstrip s).

End Str.

(** ** [class GetSysUUID] *)

Module GetSysUUID.

(** What a method of [GetSysUUID] can raise.  [GetUUIDError] is the class the
    source raises by that name (the file does not declare it); [PyExn] wraps
    the exceptions of the parser. *)
Inductive error : Type :=
  | GetUUIDError (msg : string)
  | AttributeError
  | TypeError
  | PyExn (e : exn).

Inductive outcome (A : Type) : Type :=
  | Returns (a : A)
  | Raises (e : error).

Arguments Returns {A} a.
Arguments Raises {A} e.

(** The attributes of the object; [uuid] is [None] until a handler assigns
    [self.uuid]. *)
Record obj : Type := {
  p_anonymous : bool;
  uuid : option (list byte)
}.

Definition set_uuid (self : obj) (u : list byte) : obj :=
  {| p_anonymous := p_anonymous self; uuid := Some u |}.

(** What the host gives the handlers: [sys.platform], the lines read from
    [dmidecode --type 1] and from [ioreg -rd1 -cIOPlatformExpertDevice]
    ([None] when the [try] around [Popen] catches an exception), and for
    [GetSystemFirmwareTable] the value of [GetLastError()], the text of
    [FormatError] and [FirmwareTableBuf.raw]. *)
Record host : Type := {
  platform : string;
  dmidecode : option (list (list byte));
  ioreg : option (list (list byte));
  GetLastError : Z;
  FormatError : string;
  FirmwareTableBuf_raw : list byte
}.

(** The body of [for line in ret] in [_get_linux_uuid]. *)
Definition scan_linux (self : obj) (line : list byte) : obj :=
  if Str.contains line (Str.lit "UUID") then
    let line := Str.replace line (Str.lit " ") (Str.lit "") in
    let pos := Py.find line (Str.lit ":") in
    set_uuid self (Str.strip (Py.slice_from line (pos + 1)))
  else self.

Definition _get_linux_uuid (self : obj) (h : host) : outcome obj :=
  match dmidecode h with
  | None => Raises (GetUUIDError "Bad command passed")
  | Some ret =>
      let self := foldl scan_linux self ret in
      match uuid self with
      | None => Raises AttributeError (* [self.uuid] was never assigned *)
      | Some u =>
          if bool_decide (u = []) then Raises (GetUUIDError "Could not find UUID")
          else Returns self
      end
  end.

(** The body of [for line in ret] in [_get_darwin_uuid]. *)
Definition scan_darwin (self : obj) (line : list byte) : obj :=
  if Str.contains line (Str.lit "PlatformUUID") then
    let line := Str.replace (Str.replace line (Str.lit " ") (Str.lit ""))
                  [x22] (Str.lit "") in
    let pos := Py.find line (Str.lit "=") in
    set_uuid self (Str.strip (Py.slice_from line (pos + 1)))
  else self.

Definition _get_darwin_uuid (self : obj) (h : host) : outcome obj :=
  match ioreg h with
  | None => Raises (GetUUIDError "Bad command passed")
  | Some ret => Returns (foldl scan_darwin self ret)
  end.

(** [_get_win32_uuid] from the return of [GetSystemFirmwareTable] on. *)
Definition _get_win32_uuid (self : obj) (h : host) : option (outcome obj) :=
  if negb (GetLastError h =? 0) then Some (Raises (GetUUIDError (FormatError h)))
  else
    let SMBIOSTableData := Py.slice_from (FirmwareTableBuf_raw h) 8 in
    match call (init SMBIOSTableData) with
    | None => None
    | Some (Raise e) => Some (Raises (PyExn e))
    | Some (Ok type1_data) =>
        Some (match type1_data !! "UUID" with
              | None => Raises (PyExn KeyError)
              | Some (PyInt _) => Raises TypeError
              | Some (PyTuple raw_uuid) =>
                  match format_uuid raw_uuid with
                  | Raise e => Raises (PyExn e)
                  | Ok s => Returns (set_uuid self (String.list_byte_of_string s))
                  end
              end)
    end.

(** [__init__]: the attribute [uuid] is not assigned. *)
Definition init (p_anonymous : bool) : obj :=
  {| p_anonymous := p_anonymous; uuid := None |}.

Definition supported_platforms : gmap string (obj -> host -> option (outcome obj)) :=
  {[ "linux2" := fun self h => Some (_get_linux_uuid self h);
     "darwin" := fun self h => Some (_get_darwin_uuid self h);
     "win32" := _get_win32_uuid ]}.

(** [__call__], with [hashlib.md5(s).hexdigest()] as [md5_hexdigest]: what is
    printed, the object afterwards and the value returned. *)
Definition call (md5_hexdigest : list byte -> list byte) (self : obj) (h : host)
  : option (outcome (list byte * obj * list byte)) :=
  match supported_platforms !! platform h with
  | None => Some (Raises (GetUUIDError "Unsupported Platform"))
  | Some handler =>
      match handler self h with
      | None => None
      | Some (Raises (PyExn KeyError)) =>
          Some (Raises (GetUUIDError "Unsupported Platform"))
      | Some (Raises e) => Some (Raises e)
      | Some (Returns self) =>
          Some (match uuid self with
                | None => Raises AttributeError
                | Some u =>
                    if p_anonymous self then
                      let u' := md5_hexdigest u in
                      Returns (Str.lit "MD5 (UUID): " ++ u' ++ [x0a], set_uuid self u', u')
                    else
                      Returns (Str.lit "UUID: " ++ u ++ [x0a], self, u)
                end)
      end
  end.

End GetSysUUID.

(** Equality of bytes is decidable. *)
Global Instance byte_eq_decision : EqDecision byte := Byte.byte_eq_dec.

(** The dictionary of a successful decode, empty when the decoder raises. *)
Definition decoded (raw_data : list byte) : gmap string pyval :=
  match decode_type1 raw_data with
  | Ok d => d
  | Raise _ => ∅
  end.

(** What [GetSysUUID.__call__] does with the outcome of the handler. *)
Definition after_handler (md5_hexdigest : list byte -> list byte)
    (r : option (GetSysUUID.outcome GetSysUUID.obj))
  : option (GetSysUUID.outcome (list byte * GetSysUUID.obj * list byte)) :=
  match r with
  | None => None
  | Some (GetSysUUID.Raises (GetSysUUID.PyExn KeyError)) =>
      Some (GetSysUUID.Raises (GetSysUUID.GetUUIDError "Unsupported Platform"))
  | Some (GetSysUUID.Raises e) => Some (GetSysUUID.Raises e)
  | Some (GetSysUUID.Returns self) =>
      Some (match GetSysUUID.uuid self with
            | None => GetSysUUID.Raises GetSysUUID.AttributeError
            | Some u =>
                if GetSysUUID.p_anonymous self then
                  let u' := md5_hexdigest u in
                  GetSysUUID.Returns
                    (Str.lit "MD5 (UUID): " ++ u' ++ [x0a], GetSysUUID.set_uuid self u', u')
                else
                  GetSysUUID.Returns (Str.lit "UUID: " ++ u ++ [x0a], self, u)
            end)
  end.

(** The same object created with another value of [p_anonymous]. *)
Definition with_anonymous (a : bool) (self : GetSysUUID.obj) : GetSysUUID.obj :=
  {| GetSysUUID.p_anonymous := a; GetSysUUID.uuid := GetSysUUID.uuid self |}.

(** A host that only runs [dmidecode], or [ioreg], or only reads the
    firmware table. *)
Definition linux_host (ret : list (list byte)) : GetSysUUID.host :=
  {| GetSysUUID.platform := "linux2"; GetSysUUID.dmidecode := Some ret;
     GetSysUUID.ioreg := None; GetSysUUID.GetLastError := 0;
     GetSysUUID.FormatError := ""; GetSysUUID.FirmwareTableBuf_raw := [] |}.

Definition darwin_host (ret : list (list byte)) : GetSysUUID.host :=
  {| GetSysUUID.platform := "darwin"; GetSysUUID.dmidecode := None;
     GetSysUUID.ioreg := Some ret; GetSysUUID.GetLastError := 0;
     GetSysUUID.FormatError := ""; GetSysUUID.FirmwareTableBuf_raw := [] |}.


(** * Properties *)

(** ** Python slices with non-negative bounds *)

Section slices.
Context {A : Type}.
Implicit Types (s : list A) (a b : Z).

Lemma clip_nonneg (len : nat) a :
  0 <= a -> Py.clip len a = Nat.min (Z.to_nat a) len.
Proof.
  intros Ha. unfold Py.clip.
  destruct (Z.ltb_spec a 0) as [Hlt | _]; [lia | reflexivity].
Qed.

Lemma slice_from_nonneg s a :
  0 <= a -> Py.slice_from s a = drop (Z.to_nat a) s.
Proof.
  intros Ha. unfold Py.slice_from. rewrite clip_nonneg by done.
  destruct (Nat.le_gt_cases (Z.to_nat a) (length s)) as [Hle | Hgt].
  - by rewrite Nat.min_l.
  - rewrite Nat.min_r by lia.
    by rewrite !drop_ge by lia.
Qed.

Lemma slice_to_nonneg s b :
  0 <= b -> Py.slice_to s b = take (Z.to_nat b) s.
Proof.
  intros Hb. unfold Py.slice_to. rewrite clip_nonneg by done.
  destruct (Nat.le_gt_cases (Z.to_nat b) (length s)) as [Hle | Hgt].
  - by rewrite Nat.min_l.
  - rewrite Nat.min_r by lia.
    by rewrite !take_ge by lia.
Qed.

Lemma slice_nonneg s a b :
  0 <= a <= b ->
  Py.slice s a b = take (Z.to_nat b - Z.to_nat a) (drop (Z.to_nat a) s).
Proof.
  intros [Ha Hab]. unfold Py.slice. rewrite !clip_nonneg by lia.
  destruct (Nat.le_gt_cases (length s) (Z.to_nat a)) as [Hle | Hgt].
  - rewrite (Nat.min_r (Z.to_nat a)) by lia.
    by rewrite !drop_ge, !take_nil by lia.
  - rewrite (Nat.min_l (Z.to_nat a)) by lia.
    destruct (Nat.le_gt_cases (Z.to_nat b) (length s)) as [Hb | Hb].
    + by rewrite Nat.min_l.
    + rewrite Nat.min_r by lia.
      rewrite !take_ge; [done | |]; rewrite length_drop; lia.
Qed.

(** Cutting a string at [n >= 0] loses nothing: [s[:n] + s[n:] == s]. *)
Lemma slice_to_from s b : Py.slice_to s b ++ Py.slice_from s b = s.
Proof. apply take_drop. Qed.

Lemma length_slice_from s a :
  length (Py.slice_from s a) = (length s - Py.clip (length s) a)%nat.
Proof. unfold Py.slice_from. by rewrite length_drop. Qed.

End slices.

(** ** [str.find] *)

Section find.
Implicit Types (s t sub : list byte) (i : Z).

Lemma startswith_length s sub :
  Py.startswith s sub = true -> (length sub <= length s)%nat.
Proof.
  revert s. induction sub as [| c sub IH]; intros [| d s] H; simpl in *;
    try lia; try discriminate.
  apply andb_prop in H as [_ H]. apply IH in H. lia.
Qed.

Lemma startswith_app s t sub :
  Py.startswith s sub = true -> Py.startswith (s ++ t) sub = true.
Proof.
  revert s. induction sub as [| c sub IH]; intros [| d s] H; simpl in *;
    try done.
  apply andb_prop in H as [Hc H]. by rewrite Hc, IH.
Qed.

Lemma startswith_app_false s t sub :
  Py.startswith s sub = false -> (length sub <= length s)%nat ->
  Py.startswith (s ++ t) sub = false.
Proof.
  revert s. induction sub as [| c sub IH]; intros [| d s] H Hlen; simpl in *;
    try done; try lia.
  destruct (Byte.eqb c d); simpl in *; [| done].
  apply IH; [done | lia].
Qed.

Lemma find_from_cons d s sub i :
  Py.find_from (d :: s) sub i =
    if Py.startswith (d :: s) sub then i else Py.find_from s sub (i + 1).
Proof. reflexivity. Qed.

(** [find] answers [-1] or a position inside the string. *)
Lemma find_from_range s sub i :
  Py.find_from s sub i = -1 \/
  i <= Py.find_from s sub i <= i + Z.of_nat (length s).
Proof.
  revert i. induction s as [| d s IH]; intros i; simpl.
  - destruct (Py.startswith [] sub); [right; lia | by left].
  - destruct (Py.startswith (d :: s) sub); [right; lia |].
    destruct (IH (i + 1)) as [-> | H]; [by left | right; lia].
Qed.

Lemma find_ge_minus_1 s sub : -1 <= Py.find s sub.
Proof. unfold Py.find. destruct (find_from_range s sub 0); lia. Qed.

Lemma find_from_shift s sub i :
  0 <= i ->
  Py.find_from s sub i =
    if Py.find_from s sub 0 =? -1 then -1 else i + Py.find_from s sub 0.
Proof.
  revert i. induction s as [| d s IH]; intros i Hi; simpl.
  - destruct (Py.startswith [] sub); simpl; [lia | done].
  - destruct (Py.startswith (d :: s) sub); simpl; [lia |].
    rewrite (IH (i + 1)), (IH (0 + 1)) by lia.
    destruct (find_from_range s sub 0) as [-> | H]; [done |].
    destruct (Z.eqb_spec (Py.find_from s sub 0) (-1)); [lia |].
    destruct (Z.eqb_spec (0 + 1 + Py.find_from s sub 0) (-1)); lia.
Qed.

Lemma find_from_found_length s sub i :
  0 <= i -> 0 <= Py.find_from s sub i -> (length sub <= length s)%nat.
Proof.
  revert i. induction s as [| d s IH]; intros i Hi; simpl.
  - destruct (Py.startswith [] sub) eqn:E; [| lia].
    intros _. by apply startswith_length in E.
  - destruct (Py.startswith (d :: s) sub) eqn:E.
    + intros _. by apply startswith_length in E.
    + intros H. apply IH in H; lia.
Qed.

(** Bytes appended after a match do not move it. *)
Lemma find_from_app s t sub i :
  0 <= i -> 0 <= Py.find_from s sub i ->
  Py.find_from (s ++ t) sub i = Py.find_from s sub i.
Proof.
  revert i. induction s as [| d s IH]; intros i Hi; simpl.
  - destruct (Py.startswith [] sub) eqn:E; [| lia].
    intros _. apply (startswith_app [] t) in E. simpl in E.
    destruct t; simpl in *; by rewrite E.
  - destruct (Py.startswith (d :: s) sub) eqn:E; intros H.
    + apply (startswith_app _ t) in E. simpl in E. by rewrite E.
    + assert (length sub <= length s)%nat as Hlen
        by (apply (find_from_found_length s sub (i + 1)); lia).
      apply (startswith_app_false _ t) in E; [| simpl; lia].
      simpl in E. rewrite E. apply IH; lia.
Qed.

Lemma find_app s t sub :
  0 <= Py.find s sub -> Py.find (s ++ t) sub = Py.find s sub.
Proof. unfold Py.find. by apply find_from_app. Qed.

Lemma eqb_x00_sym a : Byte.eqb x00 a = Byte.eqb a x00.
Proof. by destruct a. Qed.

Lemma startswith_double_null a tl :
  Py.startswith (a :: tl) [x00; x00] =
    match tl with
    | b :: _ => Byte.eqb a x00 && Byte.eqb b x00
    | [] => false
    end.
Proof.
  destruct tl as [| b tl]; cbn; rewrite ?eqb_x00_sym, ?andb_true_r, ?andb_false_r;
    done.
Qed.

(** Without two adjacent null bytes, [find] answers [-1]. *)
Lemma find_no_double_null u :
  has_double_null u = false -> Py.find u (Struct.pack_H 0) = -1.
Proof.
  change (Struct.pack_H 0) with [x00; x00]. unfold Py.find.
  induction u as [| a tl IH]; [done |].
  rewrite find_from_cons, startswith_double_null.
  destruct tl as [| b rest]; [done |].
  cbn [has_double_null]. intros [-> H]%orb_false_elim.
  rewrite (find_from_shift (b :: rest) _ (0 + 1)) by lia.
  by rewrite (IH H).
Qed.

Lemma has_double_null_lookup u :
  has_double_null u = true <->
  exists i : nat, u !! i = Some x00 /\ u !! S i = Some x00.
Proof.
  induction u as [| a tl IH].
  - split; [done | by intros (i & H & _)].
  - destruct tl as [| b rest].
    + split; [done | by intros ([| i] & _ & H)].
    + cbn [has_double_null]. rewrite orb_true_iff, IH, andb_true_iff. split.
      * intros [[->%Byte.byte_dec_bl ->%Byte.byte_dec_bl] | (i & H0 & H1)].
        -- by exists 0%nat.
        -- by exists (S i).
      * intros ([| i] & H0 & H1).
        -- left. by simplify_eq/=.
        -- right. by exists i.
Qed.

(** The string section of a well-formed structure: [find] stops at its
    last two bytes. *)
Lemma ends_at_first_double_null_find u :
  ends_at_first_double_null u = true ->
  0 <= Py.find u (Struct.pack_H 0) /\
  Py.find u (Struct.pack_H 0) + 2 = Z.of_nat (length u).
Proof.
  change (Struct.pack_H 0) with [x00; x00]. unfold Py.find.
  induction u as [| a tl IH]; [done |].
  destruct tl as [| b rest]; [done |].
  cbn [ends_at_first_double_null].
  destruct (Byte.eqb a x00 && Byte.eqb b x00) eqn:E.
  - apply andb_prop in E as [->%Byte.byte_dec_bl ->%Byte.byte_dec_bl].
    destruct rest; [| done]. intros _. by compute.
  - intros H. destruct (IH H) as [H0 H2].
    assert (Py.startswith (a :: b :: rest) [x00; x00] = false) as Hs
      by (by rewrite startswith_double_null).
    rewrite find_from_cons, Hs.
    rewrite (find_from_shift (b :: rest) _ (0 + 1)) by lia.
    destruct (Z.eqb_spec (Py.find_from (b :: rest) [x00; x00] 0) (-1)); [lia |].
    cbn [length] in *. lia.
Qed.

End find.

(** ** One iteration of [walk_structure] *)

Section iteration.
Implicit Types (self : ParseSMBIOSTable) (t : gmap Z (list byte)).
Implicit Types (data s rest : list byte) (c : byte).

Lemma formatted_len_range c : 0 <= formatted_len c <= 255.
Proof.
  unfold formatted_len, Struct.unpack_B.
  pose proof (Byte.to_N_bounded c). lia.
Qed.

Lemma unformatted_len_pos data c : 1 <= unformatted_len data c.
Proof.
  unfold unformatted_len.
  pose proof (find_ge_minus_1 (Py.slice_from data (formatted_len c))
                (Struct.pack_H 0)). lia.
Qed.

Lemma consumed_pos data c : 1 <= formatted_len c + unformatted_len data c.
Proof.
  pose proof (formatted_len_range c). pose proof (unformatted_len_pos data c).
  lia.
Qed.

Lemma unpack_H_handle data :
  (4 <= length data)%nat ->
  Struct.unpack_H (Py.slice data 2 4) = Ok (handle_of data).
Proof.
  intros Hlen. rewrite slice_nonneg by lia.
  destruct data as [| b0 [| b1 [| b2 [| b3 data]]]]; simpl in Hlen; try lia.
  reflexivity.
Qed.

Lemma unpack_H_short data :
  (length data < 4)%nat -> Struct.unpack_H (Py.slice data 2 4) = Raise StructError.
Proof.
  intros Hlen. rewrite slice_nonneg by lia.
  destruct data as [| b0 [| b1 [| b2 [| b3 data]]]]; simpl in Hlen; try lia;
    reflexivity.
Qed.

(** Fewer than two bytes left: [data[1]] raises [IndexError], the loop
    breaks. *)
Lemma walk_iteration_break self :
  (length (SMBIOSTableData self) < 2)%nat -> walk_iteration self = Ok Break.
Proof.
  intros Hlen. unfold walk_iteration, Py.index.
  by rewrite lookup_ge_None_2 by lia.
Qed.

(** Two or three bytes left: the handle cannot be unpacked. *)
Lemma walk_iteration_struct_error self :
  (2 <= length (SMBIOSTableData self) < 4)%nat ->
  walk_iteration self = Raise StructError.
Proof.
  intros [Hlo Hhi]. unfold walk_iteration, Py.index.
  destruct (lookup_lt_is_Some_2 (SMBIOSTableData self) 1) as [c ->]; [lia |].
  by rewrite unpack_H_short.
Qed.

(** Four or more bytes left: a record is stored and the cursor moves. *)
Lemma walk_iteration_continue self c :
  SMBIOSTableData self !! 1%nat = Some c ->
  (4 <= length (SMBIOSTableData self))%nat ->
  let data := SMBIOSTableData self in
  let n := Z.to_nat (formatted_len c + unformatted_len data c) in
  walk_iteration self =
    Ok (Continue {| table_data := <[handle_of data := take n data]> (table_data self);
                    SMBIOSTableData := drop n data |}).
Proof.
  intros Hc Hlen data n. subst data n. unfold walk_iteration, Py.index.
  pose proof (consumed_pos (SMBIOSTableData self) c).
  rewrite Hc, unpack_H_handle by done. simpl.
  by rewrite slice_to_nonneg, slice_from_nonneg by lia.
Qed.

(** Every iteration that continues has consumed at least one byte. *)
Lemma walk_iteration_decreases self self' :
  walk_iteration self = Ok (Continue self') ->
  (length (SMBIOSTableData self') < length (SMBIOSTableData self))%nat.
Proof.
  unfold walk_iteration, Py.index.
  destruct (SMBIOSTableData self !! 1%nat) as [c |] eqn:Hc; [| done].
  destruct (Struct.unpack_H _); simpl; [| done].
  intros [= <-]. simpl.
  pose proof (consumed_pos (SMBIOSTableData self) c).
  apply lookup_lt_Some in Hc.
  rewrite slice_from_nonneg, length_drop by lia. lia.
Qed.

(** A well-formed structure at the cursor is recorded whole under its
    handle, and the cursor lands on the byte after its terminator. *)
Lemma walk_iteration_well_formed t s rest :
  well_formed s = true ->
  walk_iteration {| table_data := t; SMBIOSTableData := s ++ rest |} =
    Ok (Continue {| table_data := <[handle_of s := s]> t;
                    SMBIOSTableData := rest |}).
Proof.
  unfold well_formed. destruct (s !! 1%nat) as [c |] eqn:Hc; [| done].
  intros [HL Hend]%andb_prop. apply Z.leb_le in HL.
  apply ends_at_first_double_null_find in Hend as [Hpos Hfind].
  rewrite length_drop in Hfind.
  assert (Z.to_nat (formatted_len c) + 2 <= length s)%nat as Hlen by lia.
  assert (unformatted_len (s ++ rest) c =
          Z.of_nat (length s) - formatted_len c) as Hu.
  { unfold unformatted_len. rewrite slice_from_nonneg by lia.
    rewrite drop_app_le by lia. rewrite find_app by done. lia. }
  rewrite (walk_iteration_continue _ c); simpl.
  - rewrite Hu.
    replace (Z.to_nat (formatted_len c + (Z.of_nat (length s) - formatted_len c)))
      with (length s) by lia.
    rewrite take_app_length, drop_app_length.
    do 3 f_equal. unfold handle_of.
    by rewrite !lookup_app_l by lia.
  - by apply lookup_app_l_Some.
  - rewrite length_app. lia.
Qed.

End iteration.

(** ** The loop of [walk_structure] *)

Section loop.
Implicit Types (self : ParseSMBIOSTable) (t : gmap Z (list byte)).
Implicit Types (data s rest : list byte) (structs : list (list byte)).

(** Fuel above the number of bytes left is enough for the loop to end. *)
Lemma walk_loop_terminates fuel self :
  (length (SMBIOSTableData self) < fuel)%nat ->
  exists r, walk_loop fuel self = Some r.
Proof.
  revert self. induction fuel as [| fuel IH]; intros self Hlen; [lia |].
  simpl. destruct (walk_iteration self) as [[| self'] | e] eqn:E; eauto.
  apply IH. apply walk_iteration_decreases in E. lia.
Qed.

(** More fuel does not change an answer. *)
Lemma walk_loop_mono fuel fuel' self r :
  walk_loop fuel self = Some r -> (fuel <= fuel')%nat ->
  walk_loop fuel' self = Some r.
Proof.
  revert fuel' self. induction fuel as [| fuel IH]; intros fuel' self; [done |].
  destruct fuel' as [| fuel']; [lia |]. simpl.
  destruct (walk_iteration self) as [[| self'] | e]; auto.
  intros H Hle. apply IH; [done | lia].
Qed.

Lemma walk_structure_terminates self : exists r, walk_structure self = Some r.
Proof. apply walk_loop_terminates. lia. Qed.

(** Any fuel above the number of bytes left gives the answer of
    [walk_structure]. *)
Lemma walk_loop_enough fuel self :
  (length (SMBIOSTableData self) < fuel)%nat ->
  walk_loop fuel self = walk_structure self.
Proof.
  intros Hlen. destruct (walk_structure_terminates self) as [r Hr].
  rewrite Hr. apply (walk_loop_mono _ _ _ _ Hr). lia.
Qed.

(** The three equations of the loop, free of fuel. *)
Lemma walk_structure_break self :
  walk_iteration self = Ok Break -> walk_structure self = Some (Ok self).
Proof. intros E. unfold walk_structure. simpl. by rewrite E. Qed.

Lemma walk_structure_raise self e :
  walk_iteration self = Raise e -> walk_structure self = Some (Raise e).
Proof. intros E. unfold walk_structure. simpl. by rewrite E. Qed.

Lemma walk_structure_continue self self' :
  walk_iteration self = Ok (Continue self') ->
  walk_structure self = walk_structure self'.
Proof.
  intros E. pose proof (walk_iteration_decreases _ _ E) as Hlt.
  destruct (walk_structure_terminates self') as [r Hr]. rewrite Hr.
  unfold walk_structure. simpl. rewrite E.
  apply (walk_loop_mono _ _ _ _ Hr). lia.
Qed.

(** The walk raises nothing but [struct.error], and only with 2 or 3 bytes
    left at the cursor. *)
Lemma walk_iteration_raise self e :
  walk_iteration self = Raise e ->
  e = StructError /\ (2 <= length (SMBIOSTableData self) < 4)%nat.
Proof.
  unfold walk_iteration, Py.index.
  destruct (SMBIOSTableData self !! 1%nat) as [c |] eqn:Hc; [| done].
  apply lookup_lt_Some in Hc.
  destruct (Nat.lt_ge_cases (length (SMBIOSTableData self)) 4) as [Hlt | Hge].
  - rewrite unpack_H_short by done. simpl. intros [= <-]. split; [done | lia].
  - by rewrite unpack_H_handle by done.
Qed.

Lemma walk_loop_raise fuel self e :
  walk_loop fuel self = Some (Raise e) -> e = StructError.
Proof.
  revert self. induction fuel as [| fuel IH]; intros self; [done |]. simpl.
  destruct (walk_iteration self) as [[| self'] | e'] eqn:E; [done | apply IH |].
  intros [= <-]. by apply walk_iteration_raise in E as [-> _].
Qed.

(** Well-formed structures at the front of the buffer are recorded one
    after the other; the walk goes on with what follows them. *)
Lemma walk_structure_prefix t structs rest :
  Forall (fun s => well_formed s = true) structs ->
  walk_structure {| table_data := t; SMBIOSTableData := concat structs ++ rest |} =
  walk_structure {| table_data := record_all t structs; SMBIOSTableData := rest |}.
Proof.
  intros Hwf. revert t. induction Hwf as [| s structs Hs _ IH]; intros t; [done |].
  simpl. rewrite <- (assoc_L (++)).
  rewrite (walk_structure_continue _ _ (walk_iteration_well_formed t s _ Hs)).
  apply IH.
Qed.

Lemma walk_structure_concat t structs :
  Forall (fun s => well_formed s = true) structs ->
  walk_structure {| table_data := t; SMBIOSTableData := concat structs |} =
    Some (Ok {| table_data := record_all t structs; SMBIOSTableData := [] |}).
Proof.
  intros Hwf. rewrite <- (app_nil_r (concat structs)).
  rewrite walk_structure_prefix by done.
  apply walk_structure_break, walk_iteration_break. simpl. lia.
Qed.

End loop.

(** ** The table after a run of structures *)

Section record_all.
Implicit Types (t : gmap Z (list byte)) (s : list byte).
Implicit Types (structs : list (list byte)) (h : Z).

Lemma record_all_snoc t structs s :
  record_all t (structs ++ [s]) = <[handle_of s := s]> (record_all t structs).
Proof. unfold record_all. by rewrite foldl_snoc. Qed.

Lemma record_all_lookup_other t structs h :
  h ∉ handle_of <$> structs -> record_all t structs !! h = t !! h.
Proof.
  induction structs as [| s structs IH] using rev_ind; [done |].
  rewrite fmap_app, not_elem_of_app. simpl. intros [Hl Hs].
  rewrite record_all_snoc, lookup_insert_ne; [by apply IH |].
  intros Heq. apply Hs. rewrite <- Heq. by left.
Qed.

(** Last write wins. *)
Lemma record_all_lookup_last t structs h s :
  last (filter (fun x => handle_of x = h) structs) = Some s ->
  record_all t structs !! h = Some s.
Proof.
  revert s. induction structs as [| x structs IH] using rev_ind; intros s; [done |].
  rewrite filter_app, record_all_snoc.
  destruct (decide (handle_of x = h)) as [Hx | Hx].
  - rewrite (filter_cons_True _ x []) by done. rewrite filter_nil, last_snoc.
    intros [= <-]. rewrite Hx. apply lookup_insert_eq.
  - rewrite (filter_cons_False _ x []) by done. rewrite filter_nil, app_nil_r.
    intros H. rewrite lookup_insert_ne by done. by apply IH.
Qed.

(** With pairwise distinct handles the table holds exactly the structures. *)
Lemma record_all_lookup_NoDup structs h s :
  NoDup (handle_of <$> structs) ->
  record_all ∅ structs !! h = Some s <-> s ∈ structs /\ handle_of s = h.
Proof.
  revert s. induction structs as [| x structs IH] using rev_ind; intros s.
  - intros _. cbn. rewrite lookup_empty. split; [done |].
    intros [H _]. by apply not_elem_of_nil in H.
  - rewrite fmap_app, NoDup_app. simpl. intros (Hnd & Hfresh & _).
    rewrite record_all_snoc, elem_of_app, list_elem_of_singleton.
    destruct (decide (handle_of x = h)) as [Hx | Hx].
    + subst h. rewrite lookup_insert_eq. split.
      * intros [= ->]. auto.
      * intros [[Hin | ->] Hh]; [| done].
        exfalso. apply (Hfresh (handle_of x)); [| by left].
        rewrite <- Hh. by apply list_elem_of_fmap_2.
    + rewrite lookup_insert_ne by done. rewrite (IH s Hnd). split.
      * intros [Hin Hh]. auto.
      * intros [[Hin | ->] Hh]; [done | congruence].
Qed.

Lemma record_all_size structs :
  NoDup (handle_of <$> structs) -> size (record_all ∅ structs) = length structs.
Proof.
  induction structs as [| x structs IH] using rev_ind; [done |].
  rewrite fmap_app, NoDup_app. simpl. intros (Hnd & Hfresh & _).
  rewrite record_all_snoc, map_size_insert_None.
  - rewrite IH by done. rewrite length_app. simpl. lia.
  - rewrite record_all_lookup_other; [apply lookup_empty |].
    intros Hin. apply (Hfresh _ Hin). by left.
Qed.

End record_all.

(** ** Structures the walk does not reject *)

Section malformed.
Implicit Types (self : ParseSMBIOSTable) (c : byte).

(** No double null from offset [L] on: [find] gives [-1], the unformatted
    length is 1 and the record is cut after [L + 1] bytes. *)
Lemma walk_iteration_unterminated self c :
  SMBIOSTableData self !! 1%nat = Some c ->
  (4 <= length (SMBIOSTableData self))%nat ->
  let data := SMBIOSTableData self in
  let L := Z.to_nat (formatted_len c) in
  has_double_null (drop L data) = false ->
  walk_iteration self =
    Ok (Continue {| table_data := <[handle_of data := take (S L) data]> (table_data self);
                    SMBIOSTableData := drop (S L) data |}).
Proof.
  intros Hc Hlen data L Hnone. subst data L.
  pose proof (formatted_len_range c) as HL.
  rewrite (walk_iteration_continue self c) by done.
  assert (unformatted_len (SMBIOSTableData self) c = 1) as ->.
  { unfold unformatted_len. rewrite slice_from_nonneg by lia.
    by rewrite find_no_double_null. }
  by replace (Z.to_nat (formatted_len c + 1)) with (S (Z.to_nat (formatted_len c)))
    by lia.
Qed.

(** Fewer than [L] bytes left: everything left becomes the record. *)
Lemma walk_iteration_truncated self c :
  SMBIOSTableData self !! 1%nat = Some c ->
  (4 <= length (SMBIOSTableData self))%nat ->
  Z.of_nat (length (SMBIOSTableData self)) < formatted_len c ->
  let data := SMBIOSTableData self in
  walk_iteration self =
    Ok (Continue {| table_data := <[handle_of data := data]> (table_data self);
                    SMBIOSTableData := [] |}).
Proof.
  intros Hc Hlen Hshort data. subst data.
  rewrite (walk_iteration_unterminated self c) by
    (try done; by rewrite drop_ge by lia).
  by rewrite take_ge, drop_ge by lia.
Qed.

End malformed.

(** ** [parse_type1] *)

Section decode.
Implicit Types (raw_data : list byte).

(** The decoder succeeds exactly on 26 bytes or more: the last mandatory
    read is [raw_data[25]]. *)
Lemma decode_type1_succeeds raw_data :
  (exists d, decode_type1 raw_data = Ok d) <-> (26 <= length raw_data)%nat.
Proof.
  do 26 (destruct raw_data as [| ? raw_data];
         [split; [intros [d H]; by vm_compute in H | simpl; lia] |]).
  split; [simpl; lia | intros _].
  destruct raw_data as [| ? raw_data]; [by eexists |].
  destruct raw_data as [| ? raw_data]; by eexists.
Qed.

Lemma decode_type1_25 raw_data :
  length raw_data = 25%nat -> decode_type1 raw_data = Raise IndexError.
Proof.
  intros Hlen.
  do 25 (destruct raw_data as [| ? raw_data]; [done |]).
  destruct raw_data; [reflexivity | done].
Qed.

(** The bytes the decoder reads, on a structure long enough for all of
    its reads. *)
Lemma decode_type1_reads raw_data :
  (28 <= length raw_data)%nat ->
  exists d, decode_type1 raw_data = Ok d /\
    d !! "Manufacturer" = field_at raw_data 5 /\
    d !! "Product Name" = field_at raw_data 6 /\
    d !! "Version" = field_at raw_data 7 /\
    d !! "Serial Number" = field_at raw_data 8 /\
    d !! "UUID" = Some (PyTuple (Struct.unpack_B <$> take 16 (drop 8 raw_data))) /\
    d !! "Wake-up Type" = field_at raw_data 25 /\
    d !! "SKU Number" = field_at raw_data 26 /\
    d !! "Family" = field_at raw_data 27.
Proof.
  intros Hlen.
  do 28 (destruct raw_data as [| ? raw_data]; [simpl in Hlen; lia |]).
  eexists. split; [reflexivity |]. repeat split.
Qed.

End decode.

(** ** ["%x"] and the UUID string *)

Section format.
Implicit Types (b : Z) (u : list Z).

(** A byte below [0x10] is printed with one digit only. *)
Lemma format_x_one_digit b :
  0 <= b < 16 -> format_x b = String (hex_digit b) "".
Proof.
  intros Hb. unfold format_x. cbn [hex_digits].
  by rewrite Z.div_small, Z.mod_small by lia.
Qed.

(** A byte from [0x10] up is printed with its two digits. *)
Lemma format_x_two_digits b :
  16 <= b <= 255 -> format_x b = hex2 b.
Proof.
  intros Hb. unfold format_x, hex2.
  assert (4 <= Z.log2 b) as Hlog by (apply Z.log2_le_pow2; lia).
  destruct (Z.to_nat (Z.log2 b)) as [| fuel] eqn:E; [lia |].
  assert (1 <= b / 16) as Hlo by (apply Z.div_le_lower_bound; lia).
  assert (b / 16 < 16) as Hhi by (apply Z.div_lt_upper_bound; lia).
  cbn [hex_digits].
  destruct (Z.eqb_spec (b / 16) 0) as [H0 | _]; [lia |].
  by rewrite (Z.div_small (b / 16)), (Z.mod_small (b / 16)) by lia.
Qed.

Lemma format_uuid_two_digits u :
  length u = 16%nat -> Forall (fun b => 16 <= b <= 255) u ->
  format_uuid u = Ok (uuid_string u).
Proof.
  intros Hlen Hall.
  do 16 (destruct u as [| ? u]; [done |]). destruct u; [| done].
  repeat match goal with
         | H : Forall _ (_ :: _) |- _ => apply Forall_cons_1 in H as [? H]
         end.
  unfold format_uuid, tuple_index, Py.index. simpl.
  by rewrite !format_x_two_digits by done.
Qed.

Lemma uuid_string_length u :
  length u = 16%nat -> String.length (uuid_string u) = 36%nat.
Proof.
  intros Hlen.
  do 16 (destruct u as [| ? u]; [done |]). by destruct u.
Qed.

End format.

(** ** Well-formed structures, by construction *)

Section well_formed.
Implicit Types (fixed strs : list byte) (c : byte).

Lemma ends_at_first_double_null_app strs :
  ends_at_first_double_null (strs ++ [x00; x00]) =
    negb (has_double_null (strs ++ [x00])).
Proof.
  induction strs as [| a strs IH]; [done |].
  destruct strs as [| b strs].
  - cbn. by destruct (Byte.eqb a x00).
  - cbn [app ends_at_first_double_null has_double_null] in *.
    destruct (Byte.eqb a x00 && Byte.eqb b x00); [| done].
    by destruct strs.
Qed.

(** A formatted section of the declared length [L >= 4], then strings with
    no double null before the closing one. *)
Lemma well_formed_intro fixed strs c :
  fixed !! 1%nat = Some c ->
  formatted_len c = Z.of_nat (length fixed) ->
  (4 <= length fixed)%nat ->
  has_double_null (strs ++ [x00]) = false ->
  well_formed (fixed ++ strs ++ [x00; x00]) = true.
Proof.
  intros Hc HL Hlen Hstrs. unfold well_formed.
  rewrite (lookup_app_l_Some _ _ _ _ Hc), HL, Nat2Z.id, drop_app_length.
  rewrite ends_at_first_double_null_app, Hstrs.
  apply andb_true_intro. split; [apply Z.leb_le; lia | done].
Qed.

End well_formed.

(** * The claims *)

(** C1 (the decoder's offsets).  On the 27-byte Type-1 structure
    [type1_27_terminated] the decoder does not read the one-byte fields at the
    layout's offsets 4, 5, 6, 7, 24, 25 and 26: it reads each of them one byte
    further on (5, 6, 7, 8, 25, 26, 27), so "Serial Number" is the first UUID
    byte and "Family" is a byte of the string terminator.  Only the UUID is
    taken from its place, bytes 8-23.  The same offsets are read on every
    structure of 28 bytes or more. *)
Theorem parse_type1_reads_one_byte_late :
  let raw := type1_27_terminated in
  let r := call (init raw) in
  (type1_field r "Manufacturer" = Some (Ok (field_at raw 5)) /\
   field_at raw 5 <> field_at raw 4) /\
  (type1_field r "Product Name" = Some (Ok (field_at raw 6)) /\
   field_at raw 6 <> field_at raw 5) /\
  (type1_field r "Version" = Some (Ok (field_at raw 7)) /\
   field_at raw 7 <> field_at raw 6) /\
  (type1_field r "Serial Number" = Some (Ok (field_at raw 8)) /\
   field_at raw 8 <> field_at raw 7) /\
  type1_field r "UUID" =
    Some (Ok (Some (PyTuple (Struct.unpack_B <$> take 16 (drop 8 raw))))) /\
  (type1_field r "Wake-up Type" = Some (Ok (field_at raw 25)) /\
   field_at raw 25 <> field_at raw 24) /\
  (type1_field r "SKU Number" = Some (Ok (field_at raw 26)) /\
   field_at raw 26 <> field_at raw 25) /\
  (type1_field r "Family" = Some (Ok (field_at raw 27)) /\
   field_at raw 27 <> field_at raw 26) /\
  (forall raw_data, (28 <= length raw_data)%nat ->
     exists d, decode_type1 raw_data = Ok d /\
       d !! "Manufacturer" = field_at raw_data 5 /\
       d !! "Product Name" = field_at raw_data 6 /\
       d !! "Version" = field_at raw_data 7 /\
       d !! "Serial Number" = field_at raw_data 8 /\
       d !! "UUID" = Some (PyTuple (Struct.unpack_B <$> take 16 (drop 8 raw_data))) /\
       d !! "Wake-up Type" = field_at raw_data 25 /\
       d !! "SKU Number" = field_at raw_data 26 /\
       d !! "Family" = field_at raw_data 27).
Proof.
  cbv zeta.
  repeat (split; [first [vm_compute; reflexivity | by vm_compute] |]).
  apply decode_type1_reads.
Qed.

(** C2, as the claim states it, fails: the bytes
    [00 11 22 33 44 55 66 77 88 99 AA BB CC DD EE FF] are not rendered as
    ["00-11-22-33-4455-6677-8899-aabbccddeeff"].  The first four bytes form
    one group, and ["%x"] prints the zero byte as one digit. *)
Lemma format_uuid_sample :
  format_uuid (Struct.unpack_B <$> sample_uuid) =
    Ok "0112233-4455-6677-8899-aabbccddeeff" /\
  format_uuid (Struct.unpack_B <$> sample_uuid) <>
    Ok "00-11-22-33-4455-6677-8899-aabbccddeeff" /\
  format_x 0 = "0".
Proof. repeat split; by vm_compute. Qed.

(** C2, amended.  A 16-byte UUID whose bytes are all at least [0x10] is
    rendered with exactly two lowercase hexadecimal digits per byte, in the
    8-4-4-4-12 grouping of [uuid_string]: bytes 0-3, 4-5, 6-7, 8-9 and 10-15,
    the groups joined by single hyphens, 36 characters in all. *)
Theorem format_uuid_grouping (u : list Z) :
  length u = 16%nat ->
  Forall (fun b => 16 <= b <= 255) u ->
  format_uuid u = Ok (uuid_string u) /\ String.length (uuid_string u) = 36%nat.
Proof.
  intros Hlen Hall. split.
  - by apply format_uuid_two_digits.
  - by apply uuid_string_length.
Qed.

Lemma format_uuid_grouping_witness :
  format_uuid [16; 17; 34; 51; 68; 85; 102; 119; 136; 153; 170; 187; 204; 221; 238; 255] =
    Ok "10112233-4455-6677-8899-aabbccddeeff" /\
  String.length "10112233-4455-6677-8899-aabbccddeeff" = 36%nat.
Proof.
  apply (format_uuid_grouping
           [16; 17; 34; 51; 68; 85; 102; 119; 136; 153; 170; 187; 204; 221; 238; 255]).
  - reflexivity.
  - repeat constructor; lia.
Defined.

(** C3, as the claim states it, fails: [truncated] declares 27 formatted
    bytes, 6 bytes are left, and the walk returns a table that holds those 6
    bytes under handle 1. *)
Lemma walk_structure_truncated_sample :
  truncated !! 1%nat = Some x1b /\
  Z.of_nat (length truncated) < formatted_len x1b /\
  walk_structure (init truncated) =
    Some (Ok {| table_data := {[1 := truncated]}; SMBIOSTableData := [] |}) /\
  ~ fails (walk_structure (init truncated)).
Proof.
  assert (walk_structure (init truncated) =
          Some (Ok {| table_data := {[1 := truncated]}; SMBIOSTableData := [] |}))
    as H by (vm_compute; reflexivity).
  split; [reflexivity |]. split; [by vm_compute |]. split; [exact H |].
  rewrite H. by intros [e He].
Qed.

(** C3, amended.  After any run of well-formed structures, a structure of
    at least 4 bytes that declares a formatted length [L] with fewer than [L]
    bytes left does not make the walk fail: all the bytes left are stored as
    its record under its handle, and the walk returns the table. *)
Theorem walk_structure_truncated (structs : list (list byte)) (tail : list byte)
    (c : byte) :
  Forall (fun s => well_formed s = true) structs ->
  tail !! 1%nat = Some c ->
  (4 <= length tail)%nat ->
  Z.of_nat (length tail) < formatted_len c ->
  walk_structure (init (concat structs ++ tail)) =
    Some (Ok {| table_data := <[handle_of tail := tail]> (record_all ∅ structs);
                SMBIOSTableData := [] |}).
Proof.
  intros Hwf Hc Hlen Hshort. unfold init.
  rewrite walk_structure_prefix by done.
  rewrite (walk_structure_continue _ _
             (walk_iteration_truncated {| table_data := _; SMBIOSTableData := tail |}
                c Hc Hlen Hshort)).
  apply walk_structure_break, walk_iteration_break. simpl. lia.
Qed.

Lemma walk_structure_truncated_witness :
  walk_structure (init (concat three_structures ++ truncated)) =
    Some (Ok {| table_data :=
                  <[handle_of truncated := truncated]> (record_all ∅ three_structures);
                SMBIOSTableData := [] |}).
Proof.
  apply (walk_structure_truncated three_structures truncated x1b).
  - repeat constructor.
  - reflexivity.
  - simpl. lia.
  - by vm_compute.
Defined.

(** C4, as the claim states it, fails: [unterminated] has no double null
    from offset 4 on, and the walk returns a table: 5 bytes are stored under
    handle 1 and the last byte is left over. *)
Lemma walk_structure_unterminated_sample :
  unterminated !! 1%nat = Some x04 /\
  has_double_null (drop 4 unterminated) = false /\
  walk_structure (init unterminated) =
    Some (Ok {| table_data := {[1 := [x01; x04; x01; x00; x41]]};
                SMBIOSTableData := [x42] |}) /\
  ~ fails (walk_structure (init unterminated)).
Proof.
  assert (walk_structure (init unterminated) =
          Some (Ok {| table_data := {[1 := [x01; x04; x01; x00; x41]]};
                      SMBIOSTableData := [x42] |}))
    as H by (vm_compute; reflexivity).
  split; [reflexivity |]. split; [reflexivity |]. split; [exact H |].
  rewrite H. by intros [e He].
Qed.

(** C4, amended.  After any run of well-formed structures, a structure of
    at least 4 bytes with no [0x00 0x00] pair from offset [L] to the end of
    the buffer does not make the walk fail at that structure: the unformatted
    length is taken to be 1, the first [L + 1] bytes left (all of them when
    fewer are left) are stored under the handle, and the walk goes on from
    the byte after them; when at most one byte follows them, the walk returns
    the table. *)
Theorem walk_structure_unterminated (structs : list (list byte)) (tail : list byte)
    (c : byte) :
  Forall (fun s => well_formed s = true) structs ->
  tail !! 1%nat = Some c ->
  (4 <= length tail)%nat ->
  has_double_null (drop (Z.to_nat (formatted_len c)) tail) = false ->
  let L := Z.to_nat (formatted_len c) in
  let self' := {| table_data := <[handle_of tail := take (S L) tail]> (record_all ∅ structs);
                  SMBIOSTableData := drop (S L) tail |} in
  unformatted_len tail c = 1 /\
  walk_structure (init (concat structs ++ tail)) = walk_structure self' /\
  ((length tail <= S (S L))%nat ->
     walk_structure (init (concat structs ++ tail)) = Some (Ok self')).
Proof.
  intros Hwf Hc Hlen Hnone L self'.
  assert (walk_structure (init (concat structs ++ tail)) = walk_structure self') as H.
  { unfold init. rewrite walk_structure_prefix by done.
    apply walk_structure_continue.
    by apply (walk_iteration_unterminated
                {| table_data := _; SMBIOSTableData := tail |} c). }
  split; [| split; [exact H |]].
  - pose proof (formatted_len_range c).
    unfold unformatted_len. rewrite slice_from_nonneg by lia.
    by rewrite find_no_double_null.
  - intros Hshort. rewrite H.
    apply walk_structure_break, walk_iteration_break.
    subst self'. simpl. rewrite length_drop. lia.
Qed.

Lemma walk_structure_unterminated_witness :
  let self' := {| table_data := <[handle_of unterminated := take 5 unterminated]>
                                  (record_all ∅ three_structures);
                  SMBIOSTableData := drop 5 unterminated |} in
  unformatted_len unterminated x04 = 1 /\
  walk_structure (init (concat three_structures ++ unterminated)) =
    walk_structure self' /\
  ((length unterminated <= 6)%nat ->
     walk_structure (init (concat three_structures ++ unterminated)) =
       Some (Ok self')).
Proof.
  apply (walk_structure_unterminated three_structures unterminated x04).
  - repeat constructor.
  - reflexivity.
  - simpl. lia.
  - reflexivity.
Defined.

(** C5 (the decoder's minimum length).  The 25-byte Type-1 structure
    [type1_25], which reaches through the wake-up type at offset 24, is not
    decoded: the wake-up type is read from [raw_data[25]], and that raises
    [IndexError].  So does every structure of 25 bytes; decoding succeeds on 26
    bytes or more. *)
Theorem parse_type1_25_bytes_raises :
  length type1_25 = 25%nat /\
  parse_type1 {| table_data := {[1 := type1_25]}; SMBIOSTableData := [] |} =
    Raise IndexError /\
  (forall raw_data, length raw_data = 25%nat ->
     decode_type1 raw_data = Raise IndexError) /\
  (forall raw_data,
     (exists d, decode_type1 raw_data = Ok d) <-> (26 <= length raw_data)%nat).
Proof.
  split; [reflexivity |]. split; [by vm_compute |]. split.
  - apply decode_type1_25.
  - apply decode_type1_succeeds.
Qed.

(** C6.  A buffer made of one structure without strings (a formatted section
    of the declared length [L >= 4], then [0x00 0x00]) is walked into a table
    with exactly one entry, keyed by the little-endian handle of bytes 2-3,
    whose value is the whole buffer. *)
Theorem walk_structure_single (fixed : list byte) (c : byte) :
  fixed !! 1%nat = Some c ->
  formatted_len c = Z.of_nat (length fixed) ->
  (4 <= length fixed)%nat ->
  exists t,
    walk_structure (init (fixed ++ [x00; x00])) =
      Some (Ok {| table_data := t; SMBIOSTableData := [] |}) /\
    t = {[handle_of (fixed ++ [x00; x00]) := fixed ++ [x00; x00]]} /\
    size t = 1%nat.
Proof.
  intros Hc HL Hlen.
  pose proof (well_formed_intro fixed [] c Hc HL Hlen eq_refl) as Hwf.
  simpl in Hwf. eexists. split; [| split; [reflexivity |]].
  - pose proof (walk_structure_concat ∅ [fixed ++ [x00; x00]]) as H.
    simpl in H. rewrite app_nil_r in H. unfold init. rewrite H; [done |].
    by repeat constructor.
  - apply map_size_singleton.
Qed.

Lemma walk_structure_single_witness :
  exists t,
    walk_structure (init ([x7f; x04; x34; x12] ++ [x00; x00])) =
      Some (Ok {| table_data := t; SMBIOSTableData := [] |}) /\
    t = {[handle_of ([x7f; x04; x34; x12] ++ [x00; x00]) :=
            [x7f; x04; x34; x12] ++ [x00; x00]]} /\
    size t = 1%nat.
Proof.
  apply (walk_structure_single [x7f; x04; x34; x12] x04).
  - reflexivity.
  - reflexivity.
  - simpl. lia.
Defined.

(** C7 (round trip).  A buffer that concatenates well-formed structures with
    pairwise distinct handles, whatever the lengths of their string sections,
    is walked into a table with exactly as many entries as structures, and
    the table holds [s] under [h] exactly when [s] is one of the structures
    and [h] is its handle: every record is byte-identical to its structure. *)
Theorem walk_structure_round_trip (structs : list (list byte)) :
  Forall (fun s => well_formed s = true) structs ->
  NoDup (handle_of <$> structs) ->
  exists t,
    walk_structure (init (concat structs)) =
      Some (Ok {| table_data := t; SMBIOSTableData := [] |}) /\
    size t = length structs /\
    (forall h s, t !! h = Some s <-> s ∈ structs /\ handle_of s = h).
Proof.
  intros Hwf Hnd. exists (record_all ∅ structs). split; [| split].
  - by apply walk_structure_concat.
  - by apply record_all_size.
  - intros h s. by apply record_all_lookup_NoDup.
Qed.

Lemma walk_structure_round_trip_witness :
  exists t,
    walk_structure (init (concat three_structures)) =
      Some (Ok {| table_data := t; SMBIOSTableData := [] |}) /\
    size t = length three_structures /\
    (forall h s, t !! h = Some s <-> s ∈ three_structures /\ handle_of s = h).
Proof.
  apply (walk_structure_round_trip three_structures).
  - repeat constructor.
  - apply (bool_decide_unpack _). by vm_compute.
Defined.

(** C8 (last write wins).  On a buffer that concatenates well-formed
    structures, handles repeated or not, the walk returns a table, and the
    entry of a handle is the last structure of the buffer that carries it. *)
Theorem walk_structure_last_write_wins (structs : list (list byte)) (h : Z)
    (s : list byte) :
  Forall (fun s => well_formed s = true) structs ->
  last (filter (fun x => handle_of x = h) structs) = Some s ->
  exists t,
    walk_structure (init (concat structs)) =
      Some (Ok {| table_data := t; SMBIOSTableData := [] |}) /\
    t !! h = Some s.
Proof.
  intros Hwf Hlast. exists (record_all ∅ structs). split.
  - by apply walk_structure_concat.
  - by apply record_all_lookup_last.
Qed.

Lemma walk_structure_last_write_wins_witness :
  exists t,
    walk_structure (init (concat shared_handle)) =
      Some (Ok {| table_data := t; SMBIOSTableData := [] |}) /\
    t !! 7 = Some [x02; x05; x07; x00; x09; x5a; x00; x00].
Proof.
  apply (walk_structure_last_write_wins shared_handle 7).
  - repeat constructor.
  - reflexivity.
Defined.

(** C9.  When the walk has returned a table without the key 1, [parse_type1]
    raises [KeyError] from [self.table_data[1]], before anything else is
    read, and so does the whole [__call__] of the parser. *)
Theorem parse_type1_no_handle_1 (self self' : ParseSMBIOSTable) :
  walk_structure self = Some (Ok self') ->
  table_data self' !! 1 = None ->
  parse_type1 self' = Raise KeyError /\ call self = Some (Raise KeyError).
Proof.
  intros Hwalk Hnone.
  assert (parse_type1 self' = Raise KeyError) as Hparse.
  { unfold parse_type1, Py.getitem. by rewrite Hnone. }
  split; [done |]. unfold call. by rewrite Hwalk, Hparse.
Qed.

Lemma parse_type1_no_handle_1_witness :
  parse_type1 {| table_data := {[4660 := [x7f; x04; x34; x12; x00; x00]]};
                 SMBIOSTableData := [] |} = Raise KeyError /\
  call (init [x7f; x04; x34; x12; x00; x00]) = Some (Raise KeyError).
Proof.
  apply (parse_type1_no_handle_1 (init [x7f; x04; x34; x12; x00; x00])).
  - by vm_compute.
  - reflexivity.
Defined.

(** C10 (termination).  On every buffer the walk ends, with a table or an
    exception, within the fuel [walk_structure] gives the loop, and more fuel
    does not change the outcome.  The
    unformatted length is at least 1, also when no terminator is found, so
    every iteration consumes at least one byte and leaves a strictly shorter
    buffer; with fewer than 2 bytes left the loop breaks and the walk returns. *)
Theorem walk_structure_total (self : ParseSMBIOSTable) :
  (exists r, walk_structure self = Some r) /\
  (forall fuel, (length (SMBIOSTableData self) < fuel)%nat ->
     walk_loop fuel self = walk_structure self) /\
  (forall c, 1 <= unformatted_len (SMBIOSTableData self) c /\
             1 <= formatted_len c + unformatted_len (SMBIOSTableData self) c) /\
  (forall self', walk_iteration self = Ok (Continue self') ->
     (length (SMBIOSTableData self') < length (SMBIOSTableData self))%nat) /\
  ((length (SMBIOSTableData self) < 2)%nat ->
     walk_iteration self = Ok Break /\ walk_structure self = Some (Ok self)).
Proof.
  split; [apply walk_structure_terminates |].
  split; [intros fuel; apply walk_loop_enough |]. split; [| split].
  - intros c. split; [apply unformatted_len_pos | apply consumed_pos].
  - apply walk_iteration_decreases.
  - intros Hlen. pose proof (walk_iteration_break self Hlen) as H.
    split; [done | by apply walk_structure_break].
Qed.

(** * Further properties of the walker and the decoder *)

Section walk_invariants.
Implicit Types (self : ParseSMBIOSTable) (rec : list byte).

Lemma walk_iteration_break_inv self :
  walk_iteration self = Ok Break -> (length (SMBIOSTableData self) < 2)%nat.
Proof.
  unfold walk_iteration, Py.index.
  destruct (SMBIOSTableData self !! 1%nat) as [c |] eqn:Hc.
  - by destruct (Struct.unpack_H _).
  - intros _. apply lookup_ge_None_1 in Hc. lia.
Qed.

(** What one continuing iteration does, read back from its result. *)
Lemma walk_iteration_continue_inv self self' :
  walk_iteration self = Ok (Continue self') ->
  exists n : nat,
    (1 <= n)%nat /\ (4 <= length (SMBIOSTableData self))%nat /\
    table_data self' =
      <[handle_of (SMBIOSTableData self) := take n (SMBIOSTableData self)]>
        (table_data self) /\
    SMBIOSTableData self' = drop n (SMBIOSTableData self).
Proof.
  intros E.
  destruct (Nat.lt_ge_cases (length (SMBIOSTableData self)) 4) as [Hlt | Hge].
  - destruct (Nat.lt_ge_cases (length (SMBIOSTableData self)) 2) as [H2 | H2].
    + by rewrite walk_iteration_break in E.
    + by rewrite walk_iteration_struct_error in E.
  - destruct (lookup_lt_is_Some_2 (SMBIOSTableData self) 1) as [c Hc]; [lia |].
    rewrite (walk_iteration_continue self c Hc Hge) in E.
    injection E as <-. pose proof (consumed_pos (SMBIOSTableData self) c).
    eexists. repeat split; [| done]. lia.
Qed.

Lemma walk_loop_leftover fuel self self' :
  walk_loop fuel self = Some (Ok self') ->
  (length (SMBIOSTableData self') < 2)%nat /\
  exists consumed, SMBIOSTableData self = consumed ++ SMBIOSTableData self'.
Proof.
  revert self. induction fuel as [| fuel IH]; intros self; [done |]. simpl.
  destruct (walk_iteration self) as [[| self1] | e] eqn:E; [| | done].
  - intros [= <-]. split; [by apply walk_iteration_break_inv | by exists []].
  - intros H. destruct (IH _ H) as [Hlen [consumed Hc]]. split; [done |].
    apply walk_iteration_continue_inv in E as (n & _ & _ & _ & Hd).
    exists (take n (SMBIOSTableData self) ++ consumed).
    by rewrite <- (assoc_L (++)), <- Hc, Hd, take_drop.
Qed.

Lemma walk_loop_records fuel self self' h rec :
  walk_loop fuel self = Some (Ok self') ->
  table_data self' !! h = Some rec ->
  table_data self !! h = Some rec \/
  (rec <> [] /\ exists pre post, SMBIOSTableData self = pre ++ rec ++ post).
Proof.
  revert self. induction fuel as [| fuel IH]; intros self; [done |]. simpl.
  destruct (walk_iteration self) as [[| self1] | e] eqn:E; [| | done].
  - intros [= <-]. by left.
  - intros H Hrec.
    apply walk_iteration_continue_inv in E as (n & Hn & Hlen & Ht & Hd).
    destruct (IH _ H Hrec) as [H1 | (Hne & pre & post & Hpp)].
    + rewrite Ht in H1.
      destruct (decide (handle_of (SMBIOSTableData self) = h)) as [<- | Hh].
      * rewrite lookup_insert_eq in H1. injection H1 as <-. right. split.
        -- intros Hnil%(f_equal length). rewrite length_take in Hnil.
           simpl in Hnil. lia.
        -- exists [], (drop n (SMBIOSTableData self)). simpl.
           by rewrite take_drop.
      * rewrite lookup_insert_ne in H1 by done. by left.
    + right. split; [done |].
      exists (take n (SMBIOSTableData self) ++ pre), post.
      by rewrite <- (assoc_L (++)), <- Hpp, Hd, take_drop.
Qed.

Lemma walk_loop_keeps_keys fuel self self' h :
  walk_loop fuel self = Some (Ok self') ->
  is_Some (table_data self !! h) -> is_Some (table_data self' !! h).
Proof.
  revert self. induction fuel as [| fuel IH]; intros self; [done |]. simpl.
  destruct (walk_iteration self) as [[| self1] | e] eqn:E; [| | done].
  - by intros [= <-].
  - intros H Hsome. apply (IH _ H).
    apply walk_iteration_continue_inv in E as (n & _ & _ & -> & _).
    rewrite lookup_insert. by case_decide.
Qed.

End walk_invariants.

Section decode_cases.
Implicit Types (raw_data : list byte).

(** Every key the decoder fills, on every structure it accepts. *)
Lemma decode_type1_fields raw_data :
  (26 <= length raw_data)%nat ->
  exists d, decode_type1 raw_data = Ok d /\
    d !! "Length" = field_at raw_data 1 /\
    d !! "Handle" = Some (PyInt (handle_of raw_data)) /\
    d !! "Manufacturer" = field_at raw_data 5 /\
    d !! "Product Name" = field_at raw_data 6 /\
    d !! "Version" = field_at raw_data 7 /\
    d !! "Serial Number" = field_at raw_data 8 /\
    d !! "UUID" = Some (PyTuple (Struct.unpack_B <$> take 16 (drop 8 raw_data))) /\
    d !! "Wake-up Type" = field_at raw_data 25 /\
    d !! "SKU Number" = field_at raw_data 26 /\
    d !! "Family" = field_at raw_data 27.
Proof.
  intros Hlen.
  do 26 (destruct raw_data as [| ? raw_data]; [simpl in Hlen; lia |]).
  destruct raw_data as [| ? raw_data];
    [eexists; split; [reflexivity |]; repeat split |].
  destruct raw_data as [| ? raw_data];
    eexists; (split; [reflexivity |]); repeat split.
Qed.

Lemma decode_type1_short raw_data :
  (length raw_data < 26)%nat ->
  decode_type1 raw_data =
    Raise (if (length raw_data <? 2)%nat
              || ((4 <=? length raw_data)%nat && (length raw_data <? 9)%nat)
              || (24 <=? length raw_data)%nat
           then IndexError else StructError).
Proof.
  intros Hlen.
  do 26 (destruct raw_data as [| ? raw_data]; [reflexivity |]).
  simpl in Hlen. lia.
Qed.

End decode_cases.

(** The parser on a run of well-formed structures. *)
Lemma call_concat_last (structs : list (list byte)) (s : list byte) :
  Forall (fun s => well_formed s = true) structs ->
  last (filter (fun x => handle_of x = 1) structs) = Some s ->
  call (init (concat structs)) = Some (decode_type1 s).
Proof.
  intros Hwf Hlast. unfold call, init.
  rewrite walk_structure_concat by done.
  unfold parse_type1, Py.getitem. simpl.
  by rewrite (record_all_lookup_last _ _ _ _ Hlast).
Qed.

(** * Further properties of the formatter *)

Section format_more.
Implicit Types (b : Z) (u v : list Z).

Lemma string_length_app (s1 s2 : string) :
  String.length (s1 +:+ s2) = (String.length s1 + String.length s2)%nat.
Proof. induction s1 as [| c s1 IH]; simpl; [done | by rewrite IH]. Qed.

Lemma length_format_x b :
  0 <= b <= 255 ->
  String.length (format_x b) = (1 + if (16 <=? b)%Z then 1 else 0)%nat.
Proof.
  intros Hb. destruct (Z.leb_spec 16 b).
  - by rewrite format_x_two_digits by lia.
  - by rewrite format_x_one_digit by lia.
Qed.

Lemma hex_digit_inj (x y : Z) :
  0 <= x < 16 -> 0 <= y < 16 -> hex_digit x = hex_digit y -> x = y.
Proof.
  intros Hx Hy. unfold hex_digit. rewrite !nth_lookup.
  set (l := String.list_ascii_of_string "0123456789abcdef").
  assert (NoDup l) as Hnd by (apply (bool_decide_unpack _); by vm_compute).
  destruct (lookup_lt_is_Some_2 l (Z.to_nat x)) as [cx Hcx]; [simpl; lia |].
  destruct (lookup_lt_is_Some_2 l (Z.to_nat y)) as [cy Hcy]; [simpl; lia |].
  rewrite Hcx, Hcy. simpl. intros ->.
  pose proof (NoDup_lookup l _ _ _ Hnd Hcx Hcy). lia.
Qed.

Lemma hex2_inj (a b : Z) :
  0 <= a <= 255 -> 0 <= b <= 255 -> hex2 a = hex2 b -> a = b.
Proof.
  intros Ha Hb [= Hhi Hlo].
  apply hex_digit_inj in Hhi;
    [| split; [apply Z.div_pos | apply Z.div_lt_upper_bound]; lia ..].
  apply hex_digit_inj in Hlo; [| apply Z.mod_pos_bound; lia ..].
  rewrite (Z.div_mod a 16), (Z.div_mod b 16) by lia. by rewrite Hhi, Hlo.
Qed.

End format_more.

(** * Properties of the text handlers *)

Section str.
Implicit Types (s pre v : list byte) (c x : byte).

Lemma eqb_neq c x : c <> x -> Byte.eqb c x = false.
Proof.
  intros Hne. destruct (Byte.eqb c x) eqn:E; [| done].
  by apply Byte.byte_dec_bl in E.
Qed.

Lemma startswith_single x s c :
  Py.startswith (x :: s) [c] = bool_decide (x = c).
Proof.
  cbn. rewrite andb_true_r. case_bool_decide as H.
  - subst. by apply Byte.byte_dec_lb.
  - apply eqb_neq. congruence.
Qed.

(** Replacing a single byte by nothing filters it out. *)
Lemma replace_single s c :
  Str.replace s [c] [] = filter (fun x => x <> c) s.
Proof.
  unfold Str.replace. induction s as [| x s IH]; [done |].
  cbn [Str.replace_from]. rewrite startswith_single.
  case_bool_decide as H.
  - subst. rewrite filter_cons_False by (intros ?; done). simpl. apply IH.
  - rewrite filter_cons_True by done. by rewrite IH.
Qed.

Lemma find_from_single_notin s c i :
  c ∉ s -> Py.find_from s [c] i = -1.
Proof.
  revert i. induction s as [| x s IH]; intros i Hc; [done |].
  rewrite find_from_cons, startswith_single.
  apply not_elem_of_cons in Hc as [Hne Hc].
  rewrite bool_decide_eq_false_2 by congruence. by apply IH.
Qed.

(** [find] of one byte stops at its first occurrence. *)
Lemma find_from_single pre c v i :
  c ∉ pre -> Py.find_from (pre ++ c :: v) [c] i = i + Z.of_nat (length pre).
Proof.
  revert i. induction pre as [| x pre IH]; intros i Hc.
  - simpl app. rewrite find_from_cons, startswith_single.
    rewrite bool_decide_eq_true_2 by done. simpl. lia.
  - apply not_elem_of_cons in Hc as [Hne Hc]. simpl app.
    rewrite find_from_cons, startswith_single.
    rewrite bool_decide_eq_false_2 by congruence.
    rewrite IH by done. simpl length. lia.
Qed.

Lemma find_single pre c v :
  c ∉ pre -> Py.find (pre ++ c :: v) [c] = Z.of_nat (length pre).
Proof. intros Hc. unfold Py.find. by rewrite find_from_single. Qed.

Lemma find_single_notin s c : c ∉ s -> Py.find s [c] = -1.
Proof. apply find_from_single_notin. Qed.

(** [lstrip] drops a prefix, and what is left does not start with
    whitespace. *)
Lemma lstrip_suffix s : exists p, s = p ++ Str.lstrip s.
Proof.
  induction s as [| x s [p IH]]; [by exists [] |]. simpl.
  destruct (Str.isspace x); [| by exists []].
  exists (x :: p). simpl. by rewrite <- IH.
Qed.

Lemma lstrip_head s x : head (Str.lstrip s) = Some x -> Str.isspace x = false.
Proof.
  induction s as [| y s IH]; [done |]. simpl.
  destruct (Str.isspace y) eqn:E; [done |]. by intros [= <-].
Qed.

Lemma rstrip_prefix s : exists q, s = Str.rstrip s ++ q.
Proof.
  unfold Str.rstrip. destruct (lstrip_suffix (reverse s)) as [p Hp].
  exists (reverse p).
  by rewrite <- reverse_app, <- Hp, reverse_involutive.
Qed.

Lemma rstrip_last s x : last (Str.rstrip s) = Some x -> Str.isspace x = false.
Proof. unfold Str.rstrip. rewrite last_reverse. apply lstrip_head. Qed.

(** [strip] keeps a contiguous part of the string that neither starts nor
    ends with whitespace. *)
Lemma strip_infix s : exists p q, s = p ++ Str.strip s ++ q.
Proof.
  unfold Str.strip. destruct (lstrip_suffix s) as [p Hp].
  destruct (rstrip_prefix (Str.lstrip s)) as [q Hq].
  exists p, q. by rewrite <- Hq.
Qed.

Lemma strip_head s x : head (Str.strip s) = Some x -> Str.isspace x = false.
Proof.
  unfold Str.strip. destruct (rstrip_prefix (Str.lstrip s)) as [q Hq].
  intros Hh. apply (lstrip_head s). rewrite Hq.
  destruct (Str.rstrip (Str.lstrip s)); [done | by simpl in *].
Qed.

Lemma strip_last s x : last (Str.strip s) = Some x -> Str.isspace x = false.
Proof. apply rstrip_last. Qed.

Lemma strip_elem_of s x : x ∈ Str.strip s -> x ∈ s.
Proof.
  destruct (strip_infix s) as (p & q & Hs). intros Hx.
  rewrite Hs, !elem_of_app. auto.
Qed.

Lemma slice_from_elem_of s (k : Z) x : x ∈ Py.slice_from s k -> x ∈ s.
Proof.
  unfold Py.slice_from. intros Hx.
  rewrite <- (take_drop (Py.clip (length s) k) s), elem_of_app. auto.
Qed.

End str.

(** * Further properties, stated *)

(** X1.  The walk raises nothing but [struct.error]: never [IndexError] (the
    loop catches it) and never [KeyError].  It does raise [struct.error] when
    the buffer it is given has 2 or 3 bytes. *)
Theorem walk_structure_raises_struct_error_only (self : ParseSMBIOSTable) :
  (forall e, walk_structure self = Some (Raise e) -> e = StructError) /\
  ((2 <= length (SMBIOSTableData self) < 4)%nat ->
     walk_structure self = Some (Raise StructError)).
Proof.
  split.
  - intros e. apply walk_loop_raise.
  - intros Hlen. by apply walk_structure_raise, walk_iteration_struct_error.
Qed.

(** X2.  A walk that returns has consumed the buffer from the front and left
    at most one byte behind. *)
Theorem walk_structure_leftover (self self' : ParseSMBIOSTable) :
  walk_structure self = Some (Ok self') ->
  (length (SMBIOSTableData self') < 2)%nat /\
  exists consumed, SMBIOSTableData self = consumed ++ SMBIOSTableData self'.
Proof. apply walk_loop_leftover. Qed.

Lemma walk_structure_leftover_witness :
  let self' := {| table_data := {[1 := [x01; x04; x01; x00; x41]]};
                  SMBIOSTableData := [x42] |} in
  (length (SMBIOSTableData self') < 2)%nat /\
  exists consumed,
    SMBIOSTableData (init unterminated) = consumed ++ SMBIOSTableData self'.
Proof.
  apply (walk_structure_leftover (init unterminated)).
  vm_compute. reflexivity.
Defined.

(** X3.  The walk only adds to the table: a key that was there stays, and
    every record of the final table is either a record the table already
    held or a non-empty run of consecutive bytes of the buffer. *)
Theorem walk_structure_records_are_slices (self self' : ParseSMBIOSTable) :
  walk_structure self = Some (Ok self') ->
  (forall h, is_Some (table_data self !! h) -> is_Some (table_data self' !! h)) /\
  (forall h rec, table_data self' !! h = Some rec ->
     table_data self !! h = Some rec \/
     (rec <> [] /\ exists pre post, SMBIOSTableData self = pre ++ rec ++ post)).
Proof.
  intros H. split.
  - intros h. by apply (walk_loop_keeps_keys _ _ _ _ H).
  - intros h rec. by apply (walk_loop_records _ _ _ _ _ H).
Qed.

Lemma walk_structure_records_are_slices_witness :
  let self' := {| table_data := {[1 := [x01; x04; x01; x00; x41]]};
                  SMBIOSTableData := [x42] |} in
  (forall h, is_Some (table_data (init unterminated) !! h) ->
     is_Some (table_data self' !! h)) /\
  (forall h rec, table_data self' !! h = Some rec ->
     table_data (init unterminated) !! h = Some rec \/
     (rec <> [] /\
      exists pre post, SMBIOSTableData (init unterminated) = pre ++ rec ++ post)).
Proof.
  apply (walk_structure_records_are_slices (init unterminated)).
  vm_compute. reflexivity.
Defined.

(** X4.  Whenever the decoder succeeds, "Length" is byte 1, "Handle" the
    little-endian bytes 2-3, the UUID bytes 8-23, and the one-byte fields are
    the bytes at 5, 6, 7, 8 and 25.  "SKU Number" is set exactly when byte 26
    exists and "Family" exactly when byte 27 exists: on a 27-byte structure
    the [try] block leaves "SKU Number" set and "Family" unset. *)
Theorem decode_type1_fields_present (raw_data : list byte) (d : gmap string pyval) :
  decode_type1 raw_data = Ok d ->
  d !! "Length" = field_at raw_data 1 /\
  d !! "Handle" = Some (PyInt (handle_of raw_data)) /\
  d !! "Manufacturer" = field_at raw_data 5 /\
  d !! "Product Name" = field_at raw_data 6 /\
  d !! "Version" = field_at raw_data 7 /\
  d !! "Serial Number" = field_at raw_data 8 /\
  d !! "UUID" = Some (PyTuple (Struct.unpack_B <$> take 16 (drop 8 raw_data))) /\
  d !! "Wake-up Type" = field_at raw_data 25 /\
  d !! "SKU Number" = field_at raw_data 26 /\
  d !! "Family" = field_at raw_data 27.
Proof.
  intros H.
  assert (26 <= length raw_data)%nat as Hlen
    by (apply decode_type1_succeeds; by exists d).
  destruct (decode_type1_fields raw_data Hlen) as (d' & Hd' & Hfields).
  rewrite H in Hd'. by injection Hd' as <-.
Qed.

Lemma decode_type1_fields_present_witness :
  let d := decoded type1_27 in
  d !! "Length" = field_at type1_27 1 /\
  d !! "Handle" = Some (PyInt (handle_of type1_27)) /\
  d !! "Manufacturer" = field_at type1_27 5 /\
  d !! "Product Name" = field_at type1_27 6 /\
  d !! "Version" = field_at type1_27 7 /\
  d !! "Serial Number" = field_at type1_27 8 /\
  d !! "UUID" = Some (PyTuple (Struct.unpack_B <$> take 16 (drop 8 type1_27))) /\
  d !! "Wake-up Type" = field_at type1_27 25 /\
  d !! "SKU Number" = field_at type1_27 26 /\
  d !! "Family" = field_at type1_27 27.
Proof.
  apply (decode_type1_fields_present type1_27 (decoded type1_27)).
  exact (@eq_refl _ (Ok (decoded type1_27))
           <: decode_type1 type1_27 = Ok (decoded type1_27)).
Defined.

(** X5.  On a structure shorter than 26 bytes the decoder raises, and the
    length decides what: [IndexError] below 2 bytes, at 4 to 8 bytes and at
    24 or 25 bytes; [struct.error] at 2 or 3 bytes (the handle) and at 9 to 23
    bytes (the UUID). *)
Theorem decode_type1_error_by_length (raw_data : list byte) :
  (length raw_data < 26)%nat ->
  decode_type1 raw_data =
    Raise (if (length raw_data <? 2)%nat
              || ((4 <=? length raw_data)%nat && (length raw_data <? 9)%nat)
              || (24 <=? length raw_data)%nat
           then IndexError else StructError).
Proof. apply decode_type1_short. Qed.

Lemma decode_type1_error_by_length_witness :
  decode_type1 (take 12 type1_25) = Raise StructError.
Proof.
  apply (decode_type1_error_by_length (take 12 type1_25)). simpl. lia.
Defined.

(** X6.  Walk and decode compose: on a buffer of well-formed structures the
    parser decodes the last structure whose handle is 1, whatever stands
    before or after it. *)
Theorem call_decodes_last_handle_1 (structs : list (list byte)) (s : list byte) :
  Forall (fun s => well_formed s = true) structs ->
  last (filter (fun x => handle_of x = 1) structs) = Some s ->
  call (init (concat structs)) = Some (decode_type1 s).
Proof. apply call_concat_last. Qed.

Lemma call_decodes_last_handle_1_witness :
  call (init (concat three_structures)) =
    Some (decode_type1 (type1_27 ++ [x41; x42; x00; x43; x00; x00])).
Proof.
  apply (call_decodes_last_handle_1 three_structures).
  - repeat constructor.
  - reflexivity.
Defined.

(** X7.  The formatted string has no fixed length: for 16 bytes it has 20
    characters plus one for every byte from [0x10] up, so between 20 and
    36. *)
Theorem format_uuid_length (u : list Z) :
  length u = 16%nat ->
  Forall (fun b => 0 <= b <= 255) u ->
  exists s, format_uuid u = Ok s /\
    String.length s =
      (20 + sum_list ((fun b : Z => if (16 <=? b)%Z then 1 else 0) <$> u))%nat /\
    (20 <= String.length s <= 36)%nat.
Proof.
  intros Hlen Hall.
  do 16 (destruct u as [| ? u]; [done |]). destruct u; [| done].
  repeat match goal with
         | H : Forall _ (_ :: _) |- _ => apply Forall_cons_1 in H as [? H]
         end.
  eexists. split; [reflexivity |].
  rewrite !string_length_app, !length_format_x by done. cbn [String.length].
  cbn [fmap list_fmap sum_list sum_list_with id].
  repeat match goal with
         | |- context [(if (16 <=? ?z)%Z then 1 else 0)%nat] =>
             let k := fresh "k" in
             set (k := (if (16 <=? z)%Z then 1 else 0)%nat);
             assert (k <= 1)%nat by (subst k; destruct (16 <=? z)%Z; lia);
             clearbody k
         end.
  lia.
Qed.

Lemma format_uuid_length_witness :
  exists s, format_uuid (Struct.unpack_B <$> sample_uuid) = Ok s /\
    String.length s =
      (20 + sum_list ((fun b : Z => if (16 <=? b)%Z then 1 else 0)
                        <$> (Struct.unpack_B <$> sample_uuid)))%nat /\
    (20 <= String.length s <= 36)%nat.
Proof.
  apply (format_uuid_length (Struct.unpack_B <$> sample_uuid)).
  - reflexivity.
  - repeat constructor; by vm_compute.
Defined.

(** X8.  The formatted string does not determine the UUID: two different
    16-byte UUIDs are rendered as the same string. *)
Theorem format_uuid_not_injective :
  exists u v : list Z,
    length u = 16%nat /\ length v = 16%nat /\
    Forall (fun b => 0 <= b <= 255) u /\ Forall (fun b => 0 <= b <= 255) v /\
    u <> v /\ format_uuid u = format_uuid v.
Proof.
  exists (1 :: 16 :: replicate 14 0), (17 :: 0 :: replicate 14 0).
  repeat split; try done; repeat constructor; lia.
Qed.

(** X9.  Among the UUIDs whose bytes are all at least [0x10] the formatted
    string does determine the UUID. *)
Theorem format_uuid_injective_two_digits (u v : list Z) :
  length u = 16%nat -> length v = 16%nat ->
  Forall (fun b => 16 <= b <= 255) u ->
  Forall (fun b => 16 <= b <= 255) v ->
  format_uuid u = format_uuid v -> u = v.
Proof.
  intros Hu Hv Hallu Hallv.
  rewrite !format_uuid_two_digits by done. intros [= H].
  do 16 (destruct u as [| ? u]; [done |]). destruct u; [| done].
  do 16 (destruct v as [| ? v]; [done |]). destruct v; [| done].
  repeat match goal with
         | H : Forall _ (_ :: _) |- _ => apply Forall_cons_1 in H as [? H]
         end.
  cbn in H. injection H as H.
  repeat f_equal; apply hex2_inj; try lia; unfold hex2; congruence.
Qed.

Lemma format_uuid_injective_two_digits_witness :
  replicate 16 16 = replicate 16 16.
Proof.
  apply (format_uuid_injective_two_digits (replicate 16 16) (replicate 16 16)).
  - reflexivity.
  - reflexivity.
  - repeat constructor; lia.
  - repeat constructor; lia.
  - reflexivity.
Defined.

(** * Properties of [GetSysUUID] *)

Section handlers.
Implicit Types (self : GetSysUUID.obj) (h : GetSysUUID.host).
Implicit Types (line pre v u : list byte) (ret : list (list byte)).

Lemma despace_keeps_colon pre v :
  filter (fun x => x <> x20) (pre ++ x3a :: v) =
    filter (fun x => x <> x20) pre ++ x3a :: filter (fun x => x <> x20) v.
Proof. by rewrite filter_app, filter_cons_True by done. Qed.

Lemma scan_linux_p_anonymous self line :
  GetSysUUID.p_anonymous (GetSysUUID.scan_linux self line) =
    GetSysUUID.p_anonymous self.
Proof. unfold GetSysUUID.scan_linux. by destruct (Str.contains _ _). Qed.

Lemma scan_darwin_p_anonymous self line :
  GetSysUUID.p_anonymous (GetSysUUID.scan_darwin self line) =
    GetSysUUID.p_anonymous self.
Proof. unfold GetSysUUID.scan_darwin. by destruct (Str.contains _ _). Qed.

Lemma foldl_scan_linux_p_anonymous self ret :
  GetSysUUID.p_anonymous (foldl GetSysUUID.scan_linux self ret) =
    GetSysUUID.p_anonymous self.
Proof.
  revert self. induction ret as [| line ret IH]; intros self; [done |].
  simpl. by rewrite IH, scan_linux_p_anonymous.
Qed.

Lemma foldl_scan_darwin_p_anonymous self ret :
  GetSysUUID.p_anonymous (foldl GetSysUUID.scan_darwin self ret) =
    GetSysUUID.p_anonymous self.
Proof.
  revert self. induction ret as [| line ret IH]; intros self; [done |].
  simpl. by rewrite IH, scan_darwin_p_anonymous.
Qed.

(** Lines without the keyword leave the object as it is. *)
Lemma foldl_scan_linux_no_match self ret :
  Forall (fun line => Str.contains line (Str.lit "UUID") = false) ret ->
  foldl GetSysUUID.scan_linux self ret = self.
Proof.
  intros Hall. revert self. induction Hall as [| line ret Hl _ IH]; intros self; [done |].
  simpl. unfold GetSysUUID.scan_linux at 2. by rewrite Hl, IH.
Qed.

Lemma foldl_scan_darwin_no_match self ret :
  Forall (fun line => Str.contains line (Str.lit "PlatformUUID") = false) ret ->
  foldl GetSysUUID.scan_darwin self ret = self.
Proof.
  intros Hall. revert self. induction Hall as [| line ret Hl _ IH]; intros self; [done |].
  simpl. unfold GetSysUUID.scan_darwin at 2. by rewrite Hl, IH.
Qed.



(** The three handlers do not look at [p_anonymous]. *)
Lemma scan_linux_with_anonymous a self line :
  GetSysUUID.scan_linux (with_anonymous a self) line =
    with_anonymous a (GetSysUUID.scan_linux self line).
Proof. unfold GetSysUUID.scan_linux. by destruct (Str.contains _ _). Qed.

Lemma scan_darwin_with_anonymous a self line :
  GetSysUUID.scan_darwin (with_anonymous a self) line =
    with_anonymous a (GetSysUUID.scan_darwin self line).
Proof. unfold GetSysUUID.scan_darwin. by destruct (Str.contains _ _). Qed.

Lemma foldl_scan_linux_with_anonymous a self ret :
  foldl GetSysUUID.scan_linux (with_anonymous a self) ret =
    with_anonymous a (foldl GetSysUUID.scan_linux self ret).
Proof.
  revert self. induction ret as [| line ret IH]; intros self; [done |].
  simpl. by rewrite scan_linux_with_anonymous, IH.
Qed.

Lemma foldl_scan_darwin_with_anonymous a self ret :
  foldl GetSysUUID.scan_darwin (with_anonymous a self) ret =
    with_anonymous a (foldl GetSysUUID.scan_darwin self ret).
Proof.
  revert self. induction ret as [| line ret IH]; intros self; [done |].
  simpl. by rewrite scan_darwin_with_anonymous, IH.
Qed.

Lemma get_linux_uuid_with_anonymous a self h self' :
  GetSysUUID._get_linux_uuid self h = GetSysUUID.Returns self' ->
  GetSysUUID._get_linux_uuid (with_anonymous a self) h =
    GetSysUUID.Returns (with_anonymous a self').
Proof.
  unfold GetSysUUID._get_linux_uuid. destruct (GetSysUUID.dmidecode h); [| done].
  rewrite foldl_scan_linux_with_anonymous. simpl.
  destruct (GetSysUUID.uuid _) as [u |]; [| done].
  case_bool_decide; [done |]. by intros [= <-].
Qed.

Lemma get_darwin_uuid_with_anonymous a self h self' :
  GetSysUUID._get_darwin_uuid self h = GetSysUUID.Returns self' ->
  GetSysUUID._get_darwin_uuid (with_anonymous a self) h =
    GetSysUUID.Returns (with_anonymous a self').
Proof.
  unfold GetSysUUID._get_darwin_uuid. destruct (GetSysUUID.ioreg h); [| done].
  rewrite foldl_scan_darwin_with_anonymous. by intros [= <-].
Qed.

Lemma get_win32_uuid_with_anonymous a self h self' :
  GetSysUUID._get_win32_uuid self h = Some (GetSysUUID.Returns self') ->
  GetSysUUID._get_win32_uuid (with_anonymous a self) h =
    Some (GetSysUUID.Returns (with_anonymous a self')).
Proof.
  unfold GetSysUUID._get_win32_uuid.
  destruct (negb _); [done |].
  destruct (call _) as [[d | e] |]; [| done | done].
  destruct (d !! "UUID") as [[n | t] |]; [done | | done].
  destruct (format_uuid t); [| done]. by intros [= <-].
Qed.

(** The handler behind each supported key, and no handler behind any other. *)
Lemma supported_platforms_lookup (p : string) :
  GetSysUUID.supported_platforms !! p =
    if decide (p = "linux2")
    then Some (fun self h => Some (GetSysUUID._get_linux_uuid self h))
    else if decide (p = "darwin")
    then Some (fun self h => Some (GetSysUUID._get_darwin_uuid self h))
    else if decide (p = "win32") then Some GetSysUUID._get_win32_uuid
    else None.
Proof.
  unfold GetSysUUID.supported_platforms.
  repeat case_decide; by simplify_map_eq.
Qed.

Lemma call_after_handler (md5_hexdigest : list byte -> list byte) self h :
  GetSysUUID.call md5_hexdigest self h =
    match GetSysUUID.supported_platforms !! GetSysUUID.platform h with
    | None => Some (GetSysUUID.Raises (GetSysUUID.GetUUIDError "Unsupported Platform"))
    | Some handler => after_handler md5_hexdigest (handler self h)
    end.
Proof. reflexivity. Qed.

Lemma get_linux_uuid_p_anonymous self h self' :
  GetSysUUID._get_linux_uuid self h = GetSysUUID.Returns self' ->
  GetSysUUID.p_anonymous self' = GetSysUUID.p_anonymous self.
Proof.
  unfold GetSysUUID._get_linux_uuid. destruct (GetSysUUID.dmidecode h); [| done].
  destruct (GetSysUUID.uuid _); [| done]. case_bool_decide; [done |].
  intros [= <-]. apply foldl_scan_linux_p_anonymous.
Qed.

Lemma get_darwin_uuid_p_anonymous self h self' :
  GetSysUUID._get_darwin_uuid self h = GetSysUUID.Returns self' ->
  GetSysUUID.p_anonymous self' = GetSysUUID.p_anonymous self.
Proof.
  unfold GetSysUUID._get_darwin_uuid. destruct (GetSysUUID.ioreg h); [| done].
  intros [= <-]. apply foldl_scan_darwin_p_anonymous.
Qed.

Lemma get_win32_uuid_p_anonymous self h self' :
  GetSysUUID._get_win32_uuid self h = Some (GetSysUUID.Returns self') ->
  GetSysUUID.p_anonymous self' = GetSysUUID.p_anonymous self.
Proof.
  unfold GetSysUUID._get_win32_uuid. destruct (negb _); [done |].
  destruct (call _) as [[d | e] |]; [| done | done].
  destruct (d !! "UUID") as [[n | t] |]; [done | | done].
  destruct (format_uuid t); [| done]. by intros [= <-].
Qed.

(** The step from plain to anonymous mode, for any handler that ignores
    [p_anonymous]. *)
Lemma after_handler_anonymous (md5_hexdigest : list byte -> list byte)
    (handler : GetSysUUID.obj -> GetSysUUID.host ->
               option (GetSysUUID.outcome GetSysUUID.obj))
    self h out self' u :
  GetSysUUID.p_anonymous self = false ->
  (forall s', handler self h = Some (GetSysUUID.Returns s') ->
     GetSysUUID.p_anonymous s' = GetSysUUID.p_anonymous self /\
     handler (with_anonymous true self) h =
       Some (GetSysUUID.Returns (with_anonymous true s'))) ->
  after_handler md5_hexdigest (handler self h) =
    Some (GetSysUUID.Returns (out, self', u)) ->
  out = Str.lit "UUID: " ++ u ++ [x0a] /\
  GetSysUUID.uuid self' = Some u /\
  after_handler md5_hexdigest (handler (with_anonymous true self) h) =
    Some (GetSysUUID.Returns
            (Str.lit "MD5 (UUID): " ++ md5_hexdigest u ++ [x0a],
             GetSysUUID.set_uuid (with_anonymous true self') (md5_hexdigest u),
             md5_hexdigest u)).
Proof.
  intros Hplain Hh.
  destruct (handler self h) as [[s1 | e] |] eqn:E; [| | done].
  - destruct (Hh s1 eq_refl) as [Hp ->]. rewrite Hplain in Hp. simpl.
    destruct (GetSysUUID.uuid s1) as [u1 |] eqn:Hu1; [| done].
    rewrite Hp. by intros [= <- <- <-].
  - destruct e as [| | | []]; done.
Qed.

End handlers.

(** X10.  On a line that contains "UUID", the Linux handler takes what
    follows the first colon, with every space removed and the whitespace at
    both ends (the newline of [readlines]) stripped. *)
Theorem scan_linux_after_first_colon (self : GetSysUUID.obj) (pre v : list byte) :
  Str.contains (pre ++ x3a :: v) (Str.lit "UUID") = true ->
  x3a ∉ pre ->
  GetSysUUID.uuid (GetSysUUID.scan_linux self (pre ++ x3a :: v)) =
    Some (Str.strip (filter (fun x => x <> x20) v)).
Proof.
  intros Hc Hpre. unfold GetSysUUID.scan_linux. rewrite Hc. simpl.
  change (Str.lit " ") with [x20]. change (Str.lit "") with (@nil byte).
  change (Str.lit ":") with [x3a].
  rewrite replace_single, despace_keeps_colon.
  rewrite find_single by (rewrite list_elem_of_filter; tauto).
  rewrite slice_from_nonneg by lia.
  rewrite drop_app_ge by lia.
  replace (Z.to_nat (Z.of_nat (length (filter (fun x => x <> x20) pre)) + 1) -
           length (filter (fun x => x <> x20) pre))%nat with 1%nat by lia.
  done.
Qed.

Lemma scan_linux_after_first_colon_witness :
  GetSysUUID.uuid
    (GetSysUUID.scan_linux (GetSysUUID.init false)
       ((x09 :: Str.lit "UUID") ++ x3a :: Str.lit " 4C4C4544-0000-1010" ++ [x0a])) =
    Some (Str.strip (filter (fun x => x <> x20)
                       (Str.lit " 4C4C4544-0000-1010" ++ [x0a]))).
Proof.
  apply (scan_linux_after_first_colon (GetSysUUID.init false) (x09 :: Str.lit "UUID")).
  - reflexivity.
  - apply (bool_decide_unpack _). by vm_compute.
Defined.

(** X11.  On a line that contains "UUID" and no colon, [find] gives -1 and
    the slice starts at 0: the whole line, spaces removed and stripped, is
    taken as the UUID. *)
Theorem scan_linux_without_colon (self : GetSysUUID.obj) (line : list byte) :
  Str.contains line (Str.lit "UUID") = true ->
  x3a ∉ line ->
  GetSysUUID.uuid (GetSysUUID.scan_linux self line) =
    Some (Str.strip (filter (fun x => x <> x20) line)).
Proof.
  intros Hc Hline. unfold GetSysUUID.scan_linux. rewrite Hc. simpl.
  change (Str.lit " ") with [x20]. change (Str.lit "") with (@nil byte).
  change (Str.lit ":") with [x3a].
  rewrite replace_single.
  rewrite find_single_notin by (rewrite list_elem_of_filter; tauto).
  by rewrite slice_from_nonneg by lia.
Qed.

Lemma scan_linux_without_colon_witness :
  GetSysUUID.uuid (GetSysUUID.scan_linux (GetSysUUID.init false) (Str.lit "No UUID here")) =
    Some (Str.strip (filter (fun x => x <> x20) (Str.lit "No UUID here"))).
Proof.
  apply (scan_linux_without_colon (GetSysUUID.init false) (Str.lit "No UUID here")).
  - reflexivity.
  - apply (bool_decide_unpack _). by vm_compute.
Defined.

(** X12.  Whatever the matching line, the value the Linux handler assigns
    holds no space and neither starts nor ends with whitespace. *)
Theorem scan_linux_value_clean (self : GetSysUUID.obj) (line u : list byte) :
  Str.contains line (Str.lit "UUID") = true ->
  GetSysUUID.uuid (GetSysUUID.scan_linux self line) = Some u ->
  (x20 ∉ u) /\
  (forall x, head u = Some x -> Str.isspace x = false) /\
  (forall x, last u = Some x -> Str.isspace x = false).
Proof.
  intros Hc. unfold GetSysUUID.scan_linux. rewrite Hc. simpl.
  change (Str.lit " ") with [x20]. change (Str.lit "") with (@nil byte).
  rewrite replace_single. intros [= <-]. split; [| split].
  - intros Hin%strip_elem_of%slice_from_elem_of.
    apply list_elem_of_filter in Hin as [Hne _]. done.
  - intros x. apply strip_head.
  - intros x. apply strip_last.
Qed.

Lemma scan_linux_value_clean_witness :
  let u := Str.lit "4C4C4544-0000-1010" in
  (x20 ∉ u) /\
  (forall x, head u = Some x -> Str.isspace x = false) /\
  (forall x, last u = Some x -> Str.isspace x = false).
Proof.
  apply (scan_linux_value_clean (GetSysUUID.init false)
           (x09 :: Str.lit "UUID: 4C4C 4544-0000-1010 " ++ [x0a])).
  - reflexivity.
  - reflexivity.
Defined.

(** X13.  The value the Darwin handler assigns holds no space and no double
    quote, and neither starts nor ends with whitespace. *)
Theorem scan_darwin_value_clean (self : GetSysUUID.obj) (line u : list byte) :
  Str.contains line (Str.lit "PlatformUUID") = true ->
  GetSysUUID.uuid (GetSysUUID.scan_darwin self line) = Some u ->
  (x20 ∉ u) /\ (x22 ∉ u) /\
  (forall x, head u = Some x -> Str.isspace x = false) /\
  (forall x, last u = Some x -> Str.isspace x = false).
Proof.
  intros Hc. unfold GetSysUUID.scan_darwin. rewrite Hc. simpl.
  change (Str.lit " ") with [x20]. change (Str.lit "") with (@nil byte).
  rewrite !replace_single. intros [= <-]. split; [| split; [| split]].
  - intros Hin%strip_elem_of%slice_from_elem_of.
    apply list_elem_of_filter in Hin as [_ Hin].
    apply list_elem_of_filter in Hin as [Hne _]. done.
  - intros Hin%strip_elem_of%slice_from_elem_of.
    apply list_elem_of_filter in Hin as [Hne _]. done.
  - intros x. apply strip_head.
  - intros x. apply strip_last.
Qed.

Lemma scan_darwin_value_clean_witness :
  let u := Str.lit "AB12-CD34" in
  (x20 ∉ u) /\ (x22 ∉ u) /\
  (forall x, head u = Some x -> Str.isspace x = false) /\
  (forall x, last u = Some x -> Str.isspace x = false).
Proof.
  apply (scan_darwin_value_clean (GetSysUUID.init false)
           (Str.lit "  " ++ [x22] ++ Str.lit "IOPlatformUUID" ++ [x22] ++
            Str.lit " = " ++ [x22] ++ Str.lit "AB12-CD34" ++ [x22; x0a])).
  - reflexivity.
  - reflexivity.
Defined.



(** X15.  When no line of the [dmidecode] output contains "UUID", the Linux
    handler does not raise "Could not find UUID" on a new object: [self.uuid]
    was never assigned and the test [not self.uuid] raises [AttributeError].
    On an object that already holds a non-empty [uuid] it returns normally
    and leaves that earlier value in place. *)
Theorem get_linux_uuid_no_line (a : bool) (h : GetSysUUID.host)
    (ret : list (list byte)) :
  GetSysUUID.dmidecode h = Some ret ->
  Forall (fun line => Str.contains line (Str.lit "UUID") = false) ret ->
  GetSysUUID._get_linux_uuid (GetSysUUID.init a) h =
    GetSysUUID.Raises GetSysUUID.AttributeError /\
  (forall self u, GetSysUUID.uuid self = Some u -> u <> [] ->
     GetSysUUID._get_linux_uuid self h = GetSysUUID.Returns self).
Proof.
  intros Hret Hall. unfold GetSysUUID._get_linux_uuid. rewrite Hret. split.
  - by rewrite foldl_scan_linux_no_match.
  - intros self u Hu Hne. rewrite foldl_scan_linux_no_match by done.
    simpl. rewrite Hu. by rewrite bool_decide_eq_false_2.
Qed.

Lemma get_linux_uuid_no_line_witness :
  GetSysUUID._get_linux_uuid (GetSysUUID.init false)
    (linux_host [Str.lit "# dmidecode 2.12"; Str.lit "/dev/mem: Permission denied"]) =
    GetSysUUID.Raises GetSysUUID.AttributeError /\
  (forall self u, GetSysUUID.uuid self = Some u -> u <> [] ->
     GetSysUUID._get_linux_uuid self
       (linux_host [Str.lit "# dmidecode 2.12"; Str.lit "/dev/mem: Permission denied"]) =
       GetSysUUID.Returns self).
Proof.
  apply (get_linux_uuid_no_line false
           (linux_host [Str.lit "# dmidecode 2.12"; Str.lit "/dev/mem: Permission denied"])
           [Str.lit "# dmidecode 2.12"; Str.lit "/dev/mem: Permission denied"]).
  - reflexivity.
  - repeat constructor.
Defined.

(** X16.  On Darwin, when no line of the [ioreg] output contains
    "PlatformUUID", the handler itself returns normally, and [__call__] on a
    new object then raises [AttributeError] when it reads [self.uuid]:
    nothing is printed and no [GetUUIDError] is raised. *)
Theorem call_darwin_no_line (md5_hexdigest : list byte -> list byte) (a : bool)
    (h : GetSysUUID.host) (ret : list (list byte)) :
  GetSysUUID.platform h = "darwin" ->
  GetSysUUID.ioreg h = Some ret ->
  Forall (fun line => Str.contains line (Str.lit "PlatformUUID") = false) ret ->
  GetSysUUID._get_darwin_uuid (GetSysUUID.init a) h =
    GetSysUUID.Returns (GetSysUUID.init a) /\
  GetSysUUID.call md5_hexdigest (GetSysUUID.init a) h =
    Some (GetSysUUID.Raises GetSysUUID.AttributeError).
Proof.
  intros Hp Hret Hall.
  assert (GetSysUUID._get_darwin_uuid (GetSysUUID.init a) h =
          GetSysUUID.Returns (GetSysUUID.init a)) as Hd.
  { unfold GetSysUUID._get_darwin_uuid. rewrite Hret.
    by rewrite foldl_scan_darwin_no_match. }
  split; [done |]. unfold GetSysUUID.call.
  rewrite supported_platforms_lookup, Hp. simpl. by rewrite Hd.
Qed.

Lemma call_darwin_no_line_witness :
  GetSysUUID._get_darwin_uuid (GetSysUUID.init true) (darwin_host []) =
    GetSysUUID.Returns (GetSysUUID.init true) /\
  GetSysUUID.call (fun s => s) (GetSysUUID.init true) (darwin_host []) =
    Some (GetSysUUID.Raises GetSysUUID.AttributeError).
Proof.
  apply (call_darwin_no_line (fun s => s) true (darwin_host []) []).
  - reflexivity.
  - reflexivity.
  - constructor.
Defined.





(** X19.  Anonymous mode hashes what plain mode returns: when [__call__]
    returns [u] on an object created without [p_anonymous], the same call on
    the object created with [p_anonymous] prints "MD5 (UUID): " and returns
    the MD5 hex digest of [u], which it also stores in [self.uuid]. *)
Theorem call_anonymous_hashes_plain (md5_hexdigest : list byte -> list byte)
    (self self' : GetSysUUID.obj) (h : GetSysUUID.host) (out u : list byte) :
  GetSysUUID.p_anonymous self = false ->
  GetSysUUID.call md5_hexdigest self h = Some (GetSysUUID.Returns (out, self', u)) ->
  out = Str.lit "UUID: " ++ u ++ [x0a] /\
  GetSysUUID.uuid self' = Some u /\
  GetSysUUID.call md5_hexdigest (with_anonymous true self) h =
    Some (GetSysUUID.Returns
            (Str.lit "MD5 (UUID): " ++ md5_hexdigest u ++ [x0a],
             GetSysUUID.set_uuid (with_anonymous true self') (md5_hexdigest u),
             md5_hexdigest u)).
Proof.
  intros Hplain. rewrite !call_after_handler, supported_platforms_lookup.
  repeat case_decide; [| | | done].
  - apply (after_handler_anonymous md5_hexdigest
             (fun self h => Some (GetSysUUID._get_linux_uuid self h))); [done |].
    intros s' [= E]. split.
    + by apply (get_linux_uuid_p_anonymous _ h).
    + by rewrite (get_linux_uuid_with_anonymous true _ _ _ E).
  - apply (after_handler_anonymous md5_hexdigest
             (fun self h => Some (GetSysUUID._get_darwin_uuid self h))); [done |].
    intros s' [= E]. split.
    + by apply (get_darwin_uuid_p_anonymous _ h).
    + by rewrite (get_darwin_uuid_with_anonymous true _ _ _ E).
  - apply (after_handler_anonymous md5_hexdigest GetSysUUID._get_win32_uuid);
      [done |].
    intros s' E. split.
    + by apply (get_win32_uuid_p_anonymous _ h).
    + by apply get_win32_uuid_with_anonymous.
Qed.

Lemma call_anonymous_hashes_plain_witness :
  let h := linux_host [Str.lit "UUID: 4C4C4544"; Str.lit "Wake-up Type: x"] in
  let u := Str.lit "4C4C4544" in
  Str.lit "UUID: 4C4C4544" ++ [x0a] = Str.lit "UUID: " ++ u ++ [x0a] /\
  GetSysUUID.uuid (GetSysUUID.set_uuid (GetSysUUID.init false) u) = Some u /\
  GetSysUUID.call reverse (with_anonymous true (GetSysUUID.init false)) h =
    Some (GetSysUUID.Returns
            (Str.lit "MD5 (UUID): " ++ reverse u ++ [x0a],
             GetSysUUID.set_uuid
               (with_anonymous true (GetSysUUID.set_uuid (GetSysUUID.init false) u))
               (reverse u),
             reverse u)).
Proof.
  apply (call_anonymous_hashes_plain reverse (GetSysUUID.init false)
           (GetSysUUID.set_uuid (GetSysUUID.init false) (Str.lit "4C4C4544"))
           (linux_host [Str.lit "UUID: 4C4C4544"; Str.lit "Wake-up Type: x"])
           (Str.lit "UUID: 4C4C4544" ++ [x0a]) (Str.lit "4C4C4544")).
  - reflexivity.
  - vm_compute. reflexivity.
Defined.


